(** * Incentive calculators of [incentive_app.py]

    A shallow embedding of the nine calculators of the Streamlit application
    and the properties their specification states about them.

    Numbers.  Python [int] values (units, months, counts, thresholds, the
    integer rates) are [Z].  Python [float] values (PCPM in lakhs,
    percentages, rupee amounts, the decimal rates and multipliers) are exact
    rationals [Q]: every literal of the source is read at its decimal value
    and [*], [/] are the exact operations, so the rounding of binary
    floating point is left out of the model.  Equality of amounts is
    therefore [Qeq] ([==]).

    Labels.  Groups, slabs, products and periods are the strings of the
    source, byte for byte: its group and slab labels are written with a
    no-break space (U+00A0) between the word and the letter or digit, and
    so are they here; "No Incentive" has a plain space.  The empty string
    is Python's falsy "nothing selected".

    Failure.  [outcome] is the script's result: a value, or the Python
    exception that aborts it. *)

From Stdlib Require Import ZArith QArith Lqa Bool Ascii String List Lia.
Import ListNotations.

Open Scope string_scope.
Open Scope Z_scope.
Open Scope Q_scope.

(** ** Python values and failure *)

Module Py.

Inductive exn : Type :=
| ZeroDivisionError
| IndexError
| KeyError.

Inductive outcome (A : Type) : Type :=
| Ok (a : A)
| Raise (e : exn).

Arguments Ok {A} a.
Arguments Raise {A} e.

Definition bind {A B : Type} (m : outcome A) (k : A -> outcome B) : outcome B :=
  match m with
  | Ok a => k a
  | Raise e => Raise e
  end.

Definition raises {A : Type} (m : outcome A) (e : exn) : Prop := m = Raise e.

Definition returns {A : Type} (m : outcome A) : Prop := exists a, m = Ok a.

(** [x < y] and [x >= y] on numbers. *)
Definition lt (x y : Q) : bool := negb (Qle_bool y x).
Definition ge (x y : Q) : bool := Qle_bool y x.
Definition gt (x y : Q) : bool := negb (Qle_bool x y).

(** Truth value of a number, of an [int] and of a [str] in [if v:]. *)
Definition truthy (x : Q) : bool := negb (Qeq_bool x 0).
Definition truthy_int (n : Z) : bool := negb (n =? 0)%Z.
Definition truthy_str (s : string) : bool := negb (s =? "")%string.

(** [x / y]: true division, [ZeroDivisionError] on a zero divisor.  The
    operands are taken inside the range of a float: the [OverflowError] of
    an [int] operand, or of an [int] quotient, beyond that range is not
    modelled, and no widget hands the script such a number. *)
Definition truediv (x y : Q) : outcome Q :=
  if Qeq_bool y 0 then Raise ZeroDivisionError else Ok (x / y).

(** [d[k]] on a dict literal, kept as its list of items. *)
Fixpoint getitem_dict {V : Type} (d : list (string * V)) (k : string) : outcome V :=
  match d with
  | [] => Raise KeyError
  | (k', v) :: d' => if (k' =? k)%string then Ok v else getitem_dict d' k
  end.

(** [l[i]] on a list: a negative index counts from the end, and an index
    outside [-len, len) raises [IndexError]. *)
Definition getitem_list {V : Type} (l : list V) (i : Z) : outcome V :=
  let n := Z.of_nat (List.length l) in
  let j := if (i <? 0)%Z then (i + n)%Z else i in
  if ((0 <=? j) && (j <? n))%Z then
    match nth_error l (Z.to_nat j) with
    | Some v => Ok v
    | None => Raise IndexError
    end
  else Raise IndexError.

End Py.

Import Py.

Notation "x <- m ;; k" := (Py.bind m (fun x => k))
  (at level 61, m at next level, right associativity).

(** ** Input widgets

    [st.number_input] hands the script a value inside the range declared by
    [min_value] and [max_value]; an entry outside it never reaches the
    script.  [None] stands for such an entry. *)

Module St.

Definition number_input (min_value : Z) (max_value : option Z) (entry : Z)
  : option Z :=
  if (entry <? min_value)%Z then None
  else match max_value with
       | Some m => if (m <? entry)%Z then None else Some entry
       | None => Some entry
       end.

Definition number_input_float (min_value : Q) (max_value : option Q) (entry : Q)
  : option Q :=
  if Py.lt entry min_value then None
  else match max_value with
       | Some m => if Py.lt m entry then None else Some entry
       | None => Some entry
       end.

(** [st.selectbox] returns one of its options. *)
Definition selectbox (options : list string) (entry : string) : option string :=
  if existsb (fun o => (o =? entry)%string) options then Some entry else None.

End St.

(** ** Group classification

    The same five-way test on PCPM opens [mr_annual_incentive],
    [mr_volume_incentive], [mr_brand_incentive] and
    [mr_quarterly_brand_incentive]:
<<
    group = ""
    if pcpm:
        if pcpm < 1.5: group = "Group A"
        elif pcpm < 2.5: group = "Group B"
        elif pcpm < 4.0: group = "Group C"
        else: group = "Group D"
>> *)

Definition classify_group (pcpm : Q) : string :=
  if Py.truthy pcpm then
    if Py.lt pcpm 1.5 then "Group A"
    else if Py.lt pcpm 2.5 then "Group B"
    else if Py.lt pcpm 4.0 then "Group C"
    else "Group D"
  else "".

(** ** Hyterce dual opportunity incentive ([hyterce_calculator]) *)

Record hyterce_result : Type := {
  hy_pcpm : Q;
  hy_slab : string;
  hy_rate : Z;
  hy_incentive : Q
}.

(** The body after the three widgets.  [None] is the branch that only asks
    for a product. *)
Definition hyterce_calculator_body (product : string) (total_units months : Z)
  : outcome (option hyterce_result) :=
  if Py.truthy_str product then
    pcpm <- (if Py.truthy_int months
             then Py.truediv (inject_Z total_units) (inject_Z months)
             else Ok 0) ;;
    let '(slab, rate) :=
      if Py.ge pcpm 200 then
        let slab :=
          if Py.lt pcpm 400 then "Slab 1"
          else if Py.lt pcpm 600 then "Slab 2"
          else "Slab 3" in
        let rate :=
          if (product =? "Syrup")%string then
            if (slab =? "Slab 1")%string then 4%Z
            else if (slab =? "Slab 2")%string then 6%Z
            else 8%Z
          else
            if (slab =? "Slab 1")%string then 3%Z
            else if (slab =? "Slab 2")%string then 4%Z
            else 5%Z in
        (slab, rate)
      else ("No Incentive", 0%Z) in
    let incentive := pcpm * inject_Z rate in
    Ok (Some {| hy_pcpm := pcpm; hy_slab := slab; hy_rate := rate;
                hy_incentive := incentive |})
  else Ok None.

Definition hyterce_calculator (product_entry : string)
    (units_entry months_entry : Z)
  : option (outcome (option hyterce_result)) :=
  match St.selectbox [""; "Syrup"; "Drops"] product_entry,
        St.number_input 0 None units_entry,
        St.number_input 1 (Some 3%Z) months_entry with
  | Some product, Some total_units, Some months =>
      Some (hyterce_calculator_body product total_units months)
  | _, _, _ => None
  end.

(** ** MR annual incentive ([mr_annual_incentive]) *)

Record annual_result : Type := {
  an_group : string;
  an_multiplier : Q;
  an_incentive : Q
}.

Definition annual_multiplier (achievement : Q) (group : string) : Q :=
  if Py.ge achievement 110 then
    if (group =? "Group A")%string then 1
    else if (group =? "Group B")%string then 1.1
    else if (group =? "Group C")%string then 1.25
    else if (group =? "Group D")%string then 1.5
    else 0
  else if Py.ge achievement 105 then
    if (group =? "Group A")%string then 0.75
    else if (group =? "Group B")%string then 0.8
    else if (group =? "Group C")%string then 0.9
    else if (group =? "Group D")%string then 1
    else 0
  else 0.

(** [None] is the branch that only asks for a PCPM; with a group the
    multiplier and the incentive are shown when the multiplier is positive
    and the disqualification warning otherwise. *)
Definition mr_annual_incentive_body (pcpm achievement salary : Q)
  : option annual_result :=
  let group := classify_group pcpm in
  let multiplier := annual_multiplier achievement group in
  let incentive := salary * multiplier in
  if Py.truthy_str group then
    Some {| an_group := group; an_multiplier := multiplier;
            an_incentive := incentive |}
  else None.

Definition mr_annual_incentive (pcpm_entry achievement_entry salary_entry : Q)
  : option (option annual_result) :=
  match St.number_input_float 0 None pcpm_entry,
        St.number_input_float 0 None achievement_entry,
        St.number_input_float 0 None salary_entry with
  | Some pcpm, Some achievement, Some salary =>
      Some (mr_annual_incentive_body pcpm achievement salary)
  | _, _, _ => None
  end.

(** ** MR volume incentive ([mr_volume_incentive]) *)

Record volume_result : Type := {
  vo_group : string;
  vo_rate : Q;
  vo_incentive : Q
}.

Definition lookup_rate (ach : Q) (grp : string) : outcome Q :=
  if Py.ge ach 110 then
    Py.getitem_dict
      [("Group A", 0.75); ("Group B", 0.90); ("Group C", 1.00); ("Group D", 1.20)]
      grp
  else if Py.ge ach 105 then
    Py.getitem_dict
      [("Group A", 0.62); ("Group B", 0.70); ("Group C", 0.87); ("Group D", 1.00)]
      grp
  else if Py.ge ach 100 then
    Py.getitem_dict
      [("Group A", 0.50); ("Group B", 0.60); ("Group C", 0.75); ("Group D", 0.80)]
      grp
  else if Py.ge ach 95 then
    Py.getitem_dict
      [("Group A", 0.25); ("Group B", 0.30); ("Group C", 0.35); ("Group D", 0.40)]
      grp
  else Ok 0.

Definition mr_volume_incentive_body (period : string) (pcpm achievement sale : Q)
  : outcome (option volume_result) :=
  let group := classify_group pcpm in
  if Py.truthy_str period && Py.truthy_str group then
    rate <- lookup_rate achievement group ;;
    let incentive := sale * rate / 100 in
    Ok (Some {| vo_group := group; vo_rate := rate; vo_incentive := incentive |})
  else Ok None.

Definition mr_volume_incentive (period_entry : string)
    (pcpm_entry achievement_entry sale_entry : Q)
  : option (outcome (option volume_result)) :=
  match St.selectbox [""; "Quarter"; "Annual"] period_entry,
        St.number_input_float 0 None pcpm_entry,
        St.number_input_float 0 None achievement_entry,
        St.number_input_float 0 None sale_entry with
  | Some period, Some pcpm, Some achievement, Some sale =>
      Some (mr_volume_incentive_body period pcpm achievement sale)
  | _, _, _, _ => None
  end.

(** ** MR Eminent 11 brand incentive ([mr_brand_incentive]) *)

Record flat_result : Type := {
  fl_group : string;
  fl_incentive : Z
}.

Definition eminent_amounts : list (string * list Z) :=
  [("Group A", [0; 1000; 2000; 3000; 4000; 5000; 6000; 7000; 8000; 9000; 10000; 11000]%Z);
   ("Group B", [0; 1500; 3000; 4500; 6000; 7500; 9000; 10500; 12000; 13500; 15000; 16500]%Z);
   ("Group C", [0; 2000; 4000; 6000; 8000; 10000; 12000; 14000; 16000; 18000; 20000; 22000]%Z);
   ("Group D", [0; 2500; 5000; 7500; 10000; 12500; 15000; 17500; 20000; 22500; 25000; 27500]%Z)].

(** [index = int(num_groups)] is the identity on the [int] the widget
    returns; the lookup [amounts[group][index]] is not clamped. *)
Definition mr_brand_incentive_body (pcpm : Q) (num_groups : Z)
  : outcome (option flat_result) :=
  let group := classify_group pcpm in
  if Py.truthy_str group then
    let index := num_groups in
    row <- Py.getitem_dict eminent_amounts group ;;
    incentive <- Py.getitem_list row index ;;
    Ok (Some {| fl_group := group; fl_incentive := incentive |})
  else Ok None.

Definition mr_brand_incentive (pcpm_entry : Q) (groups_entry : Z)
  : option (outcome (option flat_result)) :=
  match St.number_input_float 0 None pcpm_entry,
        St.number_input 1 (Some 11%Z) groups_entry with
  | Some pcpm, Some num_groups => Some (mr_brand_incentive_body pcpm num_groups)
  | _, _ => None
  end.

(** ** MR quarterly brand-specific incentive ([mr_quarterly_brand_incentive]) *)

Definition quarterly_amounts : list (string * list Z) :=
  [("Group A", [0; 500; 1000; 1500; 2000]%Z);
   ("Group B", [0; 750; 1500; 2250; 3000]%Z);
   ("Group C", [0; 1000; 2000; 3000; 4000]%Z);
   ("Group D", [0; 1500; 3000; 4500; 6000]%Z)].

Definition mr_quarterly_brand_incentive_body (pcpm : Q) (num_brands : Z)
  : outcome (option flat_result) :=
  let group := classify_group pcpm in
  if Py.truthy_str group then
    row <- Py.getitem_dict quarterly_amounts group ;;
    incentive <- Py.getitem_list row num_brands ;;
    Ok (Some {| fl_group := group; fl_incentive := incentive |})
  else Ok None.

Definition mr_quarterly_brand_incentive (pcpm_entry : Q) (brands_entry : Z)
  : option (outcome (option flat_result)) :=
  match St.number_input_float 0 None pcpm_entry,
        St.number_input 1 (Some 4%Z) brands_entry with
  | Some pcpm, Some num_brands =>
      Some (mr_quarterly_brand_incentive_body pcpm num_brands)
  | _, _ => None
  end.

(** ** Manager incentive ([manager_incentive])

    One calculator for the three manager roles.  The incentive is computed
    with a guarded division; the line that displays the average of an
    eligible team divides again, without the guard:
<<
    if multiplier > 0:
        average_mr_incentive = total_mr_incentive / num_mrs if num_mrs else 0
        incentive = average_mr_incentive * multiplier
    ...
    if eligible:
        ... f"{(total_mr_incentive/num_mrs):,.2f}" ...
>> *)

Record manager_result : Type := {
  mg_eligible : bool;
  mg_multiplier : Q;
  mg_incentive : Q;
  mg_average_shown : option Q
}.

Definition manager_multiplier (eligible : bool) (high_multiplier achievement : Q)
  : Q :=
  if eligible then
    if Py.ge achievement 100 then high_multiplier
    else if Py.ge achievement 95 then 1
    else 0
  else 0.

(** Lines 433 to 436: the amount. *)
Definition manager_amount (multiplier total_mr_incentive : Q) (num_mrs : Z)
  : outcome Q :=
  if Py.gt multiplier 0 then
    average_mr_incentive <-
      (if Py.truthy_int num_mrs
       then Py.truediv total_mr_incentive (inject_Z num_mrs)
       else Ok 0) ;;
    Ok (average_mr_incentive * multiplier)
  else Ok 0.

Definition manager_incentive_body (threshold : Z) (high_multiplier : Q)
    (achievement total_mr_incentive : Q) (num_mrs : Z) (pct_mrs : Q)
  : outcome manager_result :=
  let eligible := Py.ge pct_mrs (inject_Z threshold) in
  let multiplier := manager_multiplier eligible high_multiplier achievement in
  incentive <- manager_amount multiplier total_mr_incentive num_mrs ;;
  shown <- (if eligible
            then a <- Py.truediv total_mr_incentive (inject_Z num_mrs) ;; Ok (Some a)
            else Ok None) ;;
  Ok {| mg_eligible := eligible; mg_multiplier := multiplier;
        mg_incentive := incentive; mg_average_shown := shown |}.

(** [role_name] only labels the section and keys its widgets. *)
Definition manager_incentive (role_name : string) (threshold : Z)
    (high_multiplier : Q)
    (achievement_entry total_entry : Q) (count_entry : Z) (pct_entry : Q)
  : option (outcome manager_result) :=
  match St.number_input_float 0 None achievement_entry,
        St.number_input_float 0 None total_entry,
        St.number_input 1 None count_entry,
        St.number_input_float 0 (Some 100) pct_entry with
  | Some achievement, Some total_mr_incentive, Some num_mrs, Some pct_mrs =>
      Some (manager_incentive_body threshold high_multiplier
              achievement total_mr_incentive num_mrs pct_mrs)
  | _, _, _, _ => None
  end.

(** The three calls of [main]. *)
Record role : Type := {
  role_name : string;
  role_threshold : Z;
  role_high_multiplier : Q
}.

Definition ASM : role :=
  {| role_name := "ASM"; role_threshold := 60; role_high_multiplier := 1.5 |}.
Definition RSM_BM : role :=
  {| role_name := "RSM/BM"; role_threshold := 50; role_high_multiplier := 1.3 |}.
Definition ZBM : role :=
  {| role_name := "ZBM"; role_threshold := 40; role_high_multiplier := 1.2 |}.

Definition main_roles : list role := [ASM; RSM_BM; ZBM].

Definition role_incentive_body (r : role) :=
  manager_incentive_body (role_threshold r) (role_high_multiplier r).

Definition role_incentive (r : role) :=
  manager_incentive (role_name r) (role_threshold r) (role_high_multiplier r).

(** ** Resplash Super 30 incentive ([resplash_incentive]) *)

Record resplash_result : Type := {
  rs_incremental : Z;
  rs_slab : string;
  rs_rate : Q;
  rs_precision : Q;
  rs_excellence : bool
}.

Definition incremental_units (base_units current_units : Z) : Z :=
  if (current_units >? base_units)%Z then (current_units - base_units)%Z else 0%Z.

Definition resplash_slab (incremental : Z) : string * Q :=
  if (incremental <? 1500)%Z then ("No Incentive", 0)
  else if (incremental <? 3000)%Z then ("Aspire", 0.75)
  else if (incremental <? 4500)%Z then ("Eminence", 1.00)
  else if (incremental <? 6000)%Z then ("Pinnacle", 1.25)
  else ("Summit", 1.50).

(** [None] is the branch that only says that the incremental units must
    exceed zero. *)
Definition resplash_incentive_body (base_units current_units : Z)
  : option resplash_result :=
  let incremental := incremental_units base_units current_units in
  if (incremental >? 0)%Z then
    let '(slab, rate) := resplash_slab incremental in
    let precision_incentive := inject_Z incremental * rate in
    let excellence_eligible := (incremental >=? 7500)%Z in
    Some {| rs_incremental := incremental; rs_slab := slab; rs_rate := rate;
            rs_precision := precision_incentive;
            rs_excellence := excellence_eligible |}
  else None.

Definition resplash_incentive (base_entry current_entry : Z)
  : option (option resplash_result) :=
  match St.number_input 0 None base_entry,
        St.number_input 0 None current_entry with
  | Some base_units, Some current_units =>
      Some (resplash_incentive_body base_units current_units)
  | _, _ => None
  end.

(** ** Terms and conditions ([TERMS])

    Every calculator ends with the same display of its entry of [TERMS]:
<<
    if TERMS.get("hyterce"):
        st.markdown("\n**Terms & Conditions**")
        for line in TERMS["hyterce"]:
            st.markdown(f"- {line}")
>> *)


Module PyDict.



End PyDict.



(** ** Widget keys

    Streamlit refuses two widgets with one key.  The fixed calculators write
    their keys out; [manager_incentive] derives the keys of its four
    widgets from the role name:
<<
    key_base = role_name.replace("/", "_").replace(" ", "_")
    ... key=f"{key_base}_achievement" ... f"{key_base}_total"
    ... f"{key_base}_count" ... f"{key_base}_pct"
>> *)

(** [s.replace(old, new)] for a one-character [old]. *)
Fixpoint replace_char (old : ascii) (new : string) (s : string) : string :=
  match s with
  | EmptyString => EmptyString
  | String c s' =>
      if Ascii.eqb c old then new ++ replace_char old new s'
      else String c (replace_char old new s')
  end.

Definition key_base (role_name : string) : string :=
  replace_char " " "_" (replace_char "/" "_" role_name).

Definition manager_suffixes : list string :=
  ["_achievement"; "_total"; "_count"; "_pct"].

Definition manager_keys (role_name : string) : list string :=
  map (fun suffix => key_base role_name ++ suffix) manager_suffixes.

Definition calculator_keys : list string :=
  ["hyterce_product"; "hyterce_total_units"; "hyterce_months";
   "mr_annual_pcpm"; "mr_annual_achievement"; "mr_annual_salary";
   "mr_volume_period"; "mr_volume_pcpm"; "mr_volume_achievement";
   "mr_volume_sale";
   "mr_brand_pcpm"; "mr_brand_groups";
   "mr_qb_pcpm"; "mr_qb_brands";
   "resplash_base_units"; "resplash_current_units"].

(** All keys of one run of [main]. *)
Definition main_keys : list string :=
  calculator_keys ++ flat_map (fun r => manager_keys (role_name r)) main_roles.

(** ** The page ([main])

    [main] runs the nine calculators in order; an exception in one of them
    ends the script there.  A [session] holds what is entered in the
    widgets of each calculator. *)












(** ** Vocabulary of the statements

    [by_group g a b c d] reads a table row written "A=a, B=b, C=c, D=d" at
    the group label [g]. *)

Definition by_group (g : string) (a b c d : Q) : Q :=
  if (g =? "Group A")%string then a
  else if (g =? "Group B")%string then b
  else if (g =? "Group C")%string then c
  else if (g =? "Group D")%string then d
  else 0.

Definition is_group (g : string) : Prop :=
  In g ["Group A"; "Group B"; "Group C"; "Group D"].

(** The volume rate table as the specification lists it, one row per
    achievement band. *)
Definition volume_rate_table (ach : Q) (g : string) : Q :=
  if Py.ge ach 110 then by_group g 0.75 0.90 1.00 1.20
  else if Py.ge ach 105 then by_group g 0.62 0.70 0.87 1.00
  else if Py.ge ach 100 then by_group g 0.50 0.60 0.75 0.80
  else if Py.ge ach 95 then by_group g 0.25 0.30 0.35 0.40
  else 0.

(** The flat tables are arithmetic progressions from 0: the step of each
    group in the Eminent 11 table and in the quarterly table. *)
Definition eminent_step (g : string) : Z :=
  if (g =? "Group A")%string then 1000
  else if (g =? "Group B")%string then 1500
  else if (g =? "Group C")%string then 2000
  else if (g =? "Group D")%string then 2500
  else 0.

Definition quarterly_step (g : string) : Z :=
  if (g =? "Group A")%string then 500
  else if (g =? "Group B")%string then 750
  else if (g =? "Group C")%string then 1000
  else if (g =? "Group D")%string then 1500
  else 0.

(** The Hyterce per-unit rate as a table over product and slab. *)
Definition hyterce_rate_table (product slab : string) : Z :=
  if (slab =? "No Incentive")%string then 0
  else if (product =? "Syrup")%string then
    if (slab =? "Slab 1")%string then 4
    else if (slab =? "Slab 2")%string then 6
    else 8
  else
    if (slab =? "Slab 1")%string then 3
    else if (slab =? "Slab 2")%string then 4
    else 5.

(** * Properties *)

(** ** Comparisons as propositions *)

Lemma geP (x y : Q) : reflect (y <= x) (Py.ge x y).
Proof.
  unfold Py.ge. destruct (Qle_bool y x) eqn:E; constructor.
  - now apply Qle_bool_iff.
  - intro H. apply Qle_bool_iff in H. congruence.
Qed.

Lemma ltP (x y : Q) : reflect (x < y) (Py.lt x y).
Proof.
  unfold Py.lt. destruct (Qle_bool y x) eqn:E; constructor; simpl.
  - apply Qle_bool_iff in E. lra.
  - assert (~ y <= x) by (intro H; apply Qle_bool_iff in H; congruence). lra.
Qed.

Lemma gtP (x y : Q) : reflect (y < x) (Py.gt x y).
Proof.
  unfold Py.gt. destruct (Qle_bool x y) eqn:E; constructor; simpl.
  - apply Qle_bool_iff in E. lra.
  - assert (~ x <= y) by (intro H; apply Qle_bool_iff in H; congruence). lra.
Qed.

Lemma truthyP (x : Q) : reflect (~ x == 0) (Py.truthy x).
Proof.
  unfold Py.truthy. destruct (Qeq_bool x 0) eqn:E; constructor; simpl.
  - apply Qeq_bool_iff in E. tauto.
  - now apply Qeq_bool_neq.
Qed.

Lemma truthy_intP (n : Z) : reflect (n <> 0%Z) (Py.truthy_int n).
Proof.
  unfold Py.truthy_int. destruct (Z.eqb_spec n 0); constructor; tauto.
Qed.

Lemma inject_Z_nonzero (n : Z) : n <> 0%Z -> ~ inject_Z n == 0.
Proof.
  intros Hn H. apply Hn. unfold Qeq in H. simpl in H. lia.
Qed.

Lemma truediv_int (x : Q) (n : Z) :
  n <> 0%Z -> Py.truediv x (inject_Z n) = Ok (x / inject_Z n).
Proof.
  intro Hn. unfold Py.truediv.
  destruct (Qeq_bool (inject_Z n) 0) eqn:E; [|reflexivity].
  apply Qeq_bool_iff in E. now apply inject_Z_nonzero in E.
Qed.

Lemma truediv_zero (x : Q) : Py.truediv x (inject_Z 0) = Raise ZeroDivisionError.
Proof. reflexivity. Qed.

Lemma Qpos_of_nonzero (p : Q) : 0 <= p -> ~ p == 0 -> 0 < p.
Proof.
  intros Hp Hn. destruct (Qlt_le_dec 0 p) as [H|H]; [exact H|].
  exfalso. apply Hn. lra.
Qed.

(** Case analysis on every comparison of the goal. *)
Ltac cmp_cases :=
  repeat match goal with
    | |- context [Py.ge ?a ?b] => destruct (geP a b)
    | |- context [Py.lt ?a ?b] => destruct (ltP a b)
    | |- context [Py.gt ?a ?b] => destruct (gtP a b)
    | |- context [Py.truthy ?a] => destruct (truthyP a)
    end.

(** ** The group classifier *)

Lemma classify_group_cases (p : Q) :
  (p == 0 /\ classify_group p = "") \/
  (~ p == 0 /\ p < 1.5 /\ classify_group p = "Group A") \/
  (1.5 <= p /\ p < 2.5 /\ classify_group p = "Group B") \/
  (2.5 <= p /\ p < 4.0 /\ classify_group p = "Group C") \/
  (4.0 <= p /\ classify_group p = "Group D").
Proof.
  unfold classify_group. destruct (truthyP p) as [Hn|Hn].
  - cmp_cases.
    + right; left. auto.
    + right; right; left. repeat apply conj; auto; lra.
    + right; right; right; left. repeat apply conj; auto; lra.
    + right; right; right; right. split; auto; lra.
  - left. split; auto. destruct (Qeq_dec p 0); tauto.
Qed.

(** C2.  On a non-negative PCPM the classifier returns one of the five
    labels, and which one is decided by the half-open intervals: the empty
    label exactly at 0, Group A exactly on (0, 1.5), Group B on [1.5, 2.5),
    Group C on [2.5, 4.0) and Group D from 4.0 on.  In particular 1.5 is in
    Group B and 4.0 in Group D. *)
Theorem classify_group_intervals (p : Q) (Hp : 0 <= p) :
  In (classify_group p) [""; "Group A"; "Group B"; "Group C"; "Group D"] /\
  (classify_group p = "" <-> p == 0) /\
  (classify_group p = "Group A" <-> 0 < p /\ p < 1.5) /\
  (classify_group p = "Group B" <-> 1.5 <= p /\ p < 2.5) /\
  (classify_group p = "Group C" <-> 2.5 <= p /\ p < 4.0) /\
  (classify_group p = "Group D" <-> 4.0 <= p) /\
  classify_group 1.5 = "Group B" /\
  classify_group 4.0 = "Group D".
Proof.
  destruct (classify_group_cases p)
    as [[H0 E] | [[H0 [H1 E]] | [[H0 [H1 E]] | [[H0 [H1 E]] | [H0 E]]]]];
    try apply (Qpos_of_nonzero p Hp) in H0;
    rewrite E; (split; [simpl; tauto|]);
    repeat match goal with |- _ /\ _ => split end;
    lazymatch goal with
    | |- _ <-> _ =>
        split; intro H;
        first [ discriminate H | lra | split; lra | exfalso; lra
              | reflexivity ]
    | |- _ => vm_compute; reflexivity
    end.
Qed.

Lemma classify_group_intervals_witness :
  0 <= 1.5 /\ classify_group 1.5 = "Group B".
Proof.
  split; [lra|].
  apply (classify_group_intervals 1.5); lra.
Defined.

(** ** Widgets accept exactly their declared range *)

Ltac split_all := repeat match goal with |- _ /\ _ => split end.

Lemma number_input_in_range (lo : Z) (hi : option Z) (n : Z) :
  (lo <= n)%Z ->
  match hi with Some m => (n <= m)%Z | None => True end ->
  St.number_input lo hi n = Some n.
Proof.
  intros Hlo Hhi. unfold St.number_input.
  destruct (Z.ltb_spec n lo); [lia|].
  destruct hi as [m|]; [|reflexivity].
  destruct (Z.ltb_spec m n); [lia|reflexivity].
Qed.

Lemma number_input_some (lo : Z) (hi : option Z) (n v : Z) :
  St.number_input lo hi n = Some v ->
  v = n /\ (lo <= v)%Z /\ match hi with Some m => (v <= m)%Z | None => True end.
Proof.
  unfold St.number_input.
  destruct (Z.ltb_spec n lo); [discriminate|].
  destruct hi as [m|].
  - destruct (Z.ltb_spec m n); [discriminate|].
    intro E; injection E as <-. auto.
  - intro E; injection E as <-. auto.
Qed.

Lemma number_input_float_in_range (lo : Q) (hi : option Q) (x : Q) :
  lo <= x ->
  match hi with Some m => x <= m | None => True end ->
  St.number_input_float lo hi x = Some x.
Proof.
  intros Hlo Hhi. unfold St.number_input_float.
  destruct (ltP x lo); [lra|].
  destruct hi as [m|]; [|reflexivity].
  destruct (ltP m x); [lra|reflexivity].
Qed.

Lemma number_input_float_some (lo : Q) (hi : option Q) (x v : Q) :
  St.number_input_float lo hi x = Some v ->
  v = x /\ lo <= v /\ match hi with Some m => v <= m | None => True end.
Proof.
  unfold St.number_input_float.
  destruct (ltP x lo); [discriminate|].
  destruct hi as [m|].
  - destruct (ltP m x); [discriminate|].
    intro E; injection E as <-. repeat apply conj; auto; lra.
  - intro E; injection E as <-. repeat apply conj; auto; lra.
Qed.

Lemma selectbox_some (options : list string) (entry v : string) :
  St.selectbox options entry = Some v -> v = entry /\ In v options.
Proof.
  unfold St.selectbox. destruct (existsb _ options) eqn:E; [|discriminate].
  intro H; injection H as <-. split; [reflexivity|].
  apply existsb_exists in E as [o [Ho Eo]].
  apply String.eqb_eq in Eo. now subst.
Qed.

(** ** Hyterce *)

Lemma hyterce_body_months (product : string) (total_units months : Z) :
  Py.truthy_str product = true -> months <> 0%Z ->
  exists r,
    hyterce_calculator_body product total_units months = Ok (Some r) /\
    hy_pcpm r = inject_Z total_units / inject_Z months /\
    hy_incentive r = hy_pcpm r * inject_Z (hy_rate r) /\
    (hy_pcpm r < 200 -> hy_slab r = "No Incentive" /\ hy_rate r = 0%Z) /\
    (200 <= hy_pcpm r /\ hy_pcpm r < 400 ->
       hy_slab r = "Slab 1" /\
       hy_rate r = if (product =? "Syrup")%string then 4%Z else 3%Z) /\
    (400 <= hy_pcpm r /\ hy_pcpm r < 600 ->
       hy_slab r = "Slab 2" /\
       hy_rate r = if (product =? "Syrup")%string then 6%Z else 4%Z) /\
    (600 <= hy_pcpm r ->
       hy_slab r = "Slab 3" /\
       hy_rate r = if (product =? "Syrup")%string then 8%Z else 5%Z) /\
    hy_rate r = hyterce_rate_table product (hy_slab r) /\
    (0 <= hy_rate r)%Z.
Proof.
  intros Hp Hm. unfold hyterce_calculator_body. rewrite Hp.
  destruct (truthy_intP months) as [_|H]; [|tauto].
  rewrite (truediv_int _ _ Hm). cbn [Py.bind].
  set (q := inject_Z total_units / inject_Z months).
  destruct (geP q 200) as [H200|H200].
  - destruct (ltP q 400) as [H400|H400]; [|destruct (ltP q 600) as [H600|H600]];
      cbn [String.eqb Ascii.eqb Bool.eqb];
      destruct (product =? "Syrup")%string eqn:Es;
      eexists; (split; [reflexivity|]); cbn [hy_pcpm hy_slab hy_rate hy_incentive];
      unfold hyterce_rate_table; cbn [String.eqb Ascii.eqb Bool.eqb]; rewrite ?Es;
      split_all; try reflexivity; try lia; intros; try (exfalso; lra);
      split; reflexivity.
  - eexists; (split; [reflexivity|]); cbn [hy_pcpm hy_slab hy_rate hy_incentive];
      split_all; try reflexivity; try lia; intros; try (exfalso; lra);
      split; reflexivity.
Qed.

Ltac band H :=
  let Hb := fresh in let Hs := fresh in let Hrate := fresh in
  let Hc := fresh in
  intro Hb; destruct (H Hb) as [Hs Hrate]; split; [exact Hs|];
  rewrite Hrate;
  match goal with
  | Hp : _ = "Syrup" \/ _ = "Drops" |- _ =>
      destruct Hp as [Hp|Hp]; rewrite Hp; split; intro Hc;
      first [reflexivity | discriminate Hc]
  end.

(** C3.  With a product selected, non-negative units and one to three
    months, the Hyterce calculator returns a result whose PCPM is
    units / months, whose slab and per-unit rate follow the PCPM bands
    (below 200 no incentive at rate 0, then Slab 1, 2, 3 at 4/6/8 for Syrup
    and 3/4/5 for Drops) and whose amount is PCPM times rate; 2100 units of
    Syrup over 3 months give PCPM 700, Slab 3, rate 8 and amount 5600. *)
Theorem hyterce_slab_rate_amount (product : string) (total_units months : Z)
    (Hproduct : product = "Syrup" \/ product = "Drops")
    (Hunits : (0 <= total_units)%Z)
    (Hmonths : (1 <= months <= 3)%Z) :
  (exists r,
     hyterce_calculator product total_units months = Some (Ok (Some r)) /\
     hy_pcpm r == inject_Z total_units / inject_Z months /\
     (hy_pcpm r < 200 -> hy_slab r = "No Incentive" /\ hy_rate r = 0%Z) /\
     (200 <= hy_pcpm r /\ hy_pcpm r < 400 ->
        hy_slab r = "Slab 1" /\
        (product = "Syrup" -> hy_rate r = 4%Z) /\
        (product = "Drops" -> hy_rate r = 3%Z)) /\
     (400 <= hy_pcpm r /\ hy_pcpm r < 600 ->
        hy_slab r = "Slab 2" /\
        (product = "Syrup" -> hy_rate r = 6%Z) /\
        (product = "Drops" -> hy_rate r = 4%Z)) /\
     (600 <= hy_pcpm r ->
        hy_slab r = "Slab 3" /\
        (product = "Syrup" -> hy_rate r = 8%Z) /\
        (product = "Drops" -> hy_rate r = 5%Z)) /\
     hy_incentive r == hy_pcpm r * inject_Z (hy_rate r)) /\
  (exists r,
     hyterce_calculator "Syrup" 2100 3 = Some (Ok (Some r)) /\
     hy_pcpm r == 700 /\ hy_slab r = "Slab 3" /\ hy_rate r = 8%Z /\
     hy_incentive r == 5600).
Proof.
  split.
  - assert (Hsel : St.selectbox [""; "Syrup"; "Drops"] product = Some product)
      by (destruct Hproduct; subst; reflexivity).
    assert (Htruthy : Py.truthy_str product = true)
      by (destruct Hproduct; subst; reflexivity).
    destruct (hyterce_body_months product total_units months Htruthy)
      as [r [Hr [Hq [Hi [H0 [H1 [H2 [H3 _]]]]]]]]; [lia|].
    exists r. unfold hyterce_calculator.
    rewrite Hsel, (number_input_in_range 0 None total_units Hunits I).
    rewrite (number_input_in_range 1 (Some 3%Z) months); [|lia|lia].
    rewrite Hr.
    split; [reflexivity|]. split; [rewrite Hq; reflexivity|].
    split; [exact H0|].
    split; [band H1|]. split; [band H2|]. split; [band H3|].
    rewrite Hi. reflexivity.
  - eexists. split; [reflexivity|]. cbn [hy_pcpm hy_slab hy_rate hy_incentive].
    split_all; reflexivity.
Qed.

Lemma hyterce_slab_rate_amount_witness :
  ("Drops" = "Syrup" \/ "Drops" = "Drops") /\ (0 <= 900)%Z /\ (1 <= 2 <= 3)%Z /\
  exists r,
    hyterce_calculator "Drops" 900 2 = Some (Ok (Some r)) /\
    hy_incentive r == hy_pcpm r * inject_Z (hy_rate r).
Proof.
  assert (H1 : "Drops" = "Syrup" \/ "Drops" = "Drops") by (right; reflexivity).
  assert (H2 : (0 <= 900)%Z) by lia.
  assert (H3 : (1 <= 2 <= 3)%Z) by lia.
  split; [exact H1|]. split; [exact H2|]. split; [exact H3|].
  destruct (hyterce_slab_rate_amount "Drops" 900 2 H1 H2 H3)
    as [[r [Hr [_ [_ [_ [_ [_ Hi]]]]]]] _].
  exists r. split; [exact Hr|exact Hi].
Defined.

(** ** MR annual incentive *)

Lemma classify_group_positive (p : Q) :
  0 < p ->
  (p < 1.5 /\ classify_group p = "Group A") \/
  (1.5 <= p /\ p < 2.5 /\ classify_group p = "Group B") \/
  (2.5 <= p /\ p < 4.0 /\ classify_group p = "Group C") \/
  (4.0 <= p /\ classify_group p = "Group D").
Proof.
  intro Hp.
  destruct (classify_group_cases p) as [[H0 _] | [[_ H] | H]]; [lra | tauto | tauto].
Qed.

Ltac group_cases p Hp :=
  let E := fresh "E" in
  destruct (classify_group_positive p Hp)
    as [[_ E] | [[_ [_ E]] | [[_ [_ E]] | [_ E]]]].

(** C4.  With a positive PCPM the annual rule returns a result for the
    group of that PCPM; its multiplier is the table row of the achievement
    band (from 110: A=1.0, B=1.1, C=1.25, D=1.5; from 105 up to 110: A=0.75,
    B=0.8, C=0.9, D=1.0; below 105: 0, and the amount is then 0) and its
    amount is salary times multiplier.  PCPM 1.2 with salary 50000 gives
    50000 at achievement 112 and 0 at achievement 104. *)
Theorem mr_annual_amount (pcpm achievement salary : Q) (Hpcpm : 0 < pcpm) :
  (exists r,
     mr_annual_incentive_body pcpm achievement salary = Some r /\
     an_group r = classify_group pcpm /\
     is_group (an_group r) /\
     (110 <= achievement ->
        an_multiplier r == by_group (an_group r) 1.0 1.1 1.25 1.5) /\
     (105 <= achievement /\ achievement < 110 ->
        an_multiplier r == by_group (an_group r) 0.75 0.8 0.9 1.0) /\
     (achievement < 105 -> an_multiplier r == 0 /\ an_incentive r == 0) /\
     an_incentive r == salary * an_multiplier r) /\
  (exists r,
     mr_annual_incentive_body 1.2 112 50000 = Some r /\
     an_group r = "Group A" /\ an_multiplier r == 1.0 /\
     an_incentive r == 50000) /\
  (exists r,
     mr_annual_incentive_body 1.2 104 50000 = Some r /\
     an_group r = "Group A" /\ an_multiplier r == 0 /\ an_incentive r == 0).
Proof.
  split; [|split; eexists; (split; [reflexivity|]); cbn [an_group an_multiplier an_incentive];
           split_all; reflexivity].
  unfold mr_annual_incentive_body, annual_multiplier, is_group.
  group_cases pcpm Hpcpm; rewrite E;
    cbn [Py.truthy_str String.eqb Ascii.eqb Bool.eqb negb];
    eexists; (split; [reflexivity|]);
    cbn [an_group an_multiplier an_incentive by_group String.eqb Ascii.eqb Bool.eqb];
    (split; [reflexivity|]); (split; [simpl; tauto|]);
    cmp_cases; split_all; intros; try reflexivity; try lra.
Qed.

Lemma mr_annual_amount_witness :
  0 < 3 /\
  exists r,
    mr_annual_incentive_body 3 112 40000 = Some r /\
    an_incentive r == 40000 * an_multiplier r.
Proof.
  assert (H : 0 < 3) by lra.
  split; [exact H|].
  destruct (mr_annual_amount 3 112 40000 H)
    as [[r [Hr [_ [_ [_ [_ [_ Hi]]]]]]] _].
  exists r. split; [exact Hr|exact Hi].
Defined.

(** ** MR volume incentive *)

Lemma truthy_strP (s : string) : reflect (s <> "") (Py.truthy_str s).
Proof.
  unfold Py.truthy_str. destruct (String.eqb_spec s ""); constructor; tauto.
Qed.

Lemma classify_group_is_group (p : Q) :
  0 < p -> is_group (classify_group p).
Proof.
  intro Hp. unfold is_group. group_cases p Hp; rewrite E; simpl; tauto.
Qed.

Lemma classify_group_truthy (p : Q) :
  0 <= p -> (Py.truthy_str (classify_group p) = true <-> 0 < p).
Proof.
  intro Hp.
  destruct (classify_group_cases p)
    as [[H0 E] | [[H0 [H1 E]] | [[H0 [H1 E]] | [[H0 [H1 E]] | [H0 E]]]]];
    try apply (Qpos_of_nonzero p Hp) in H0;
    rewrite E; cbn; split; intro H; first [discriminate H | lra | reflexivity].
Qed.

Lemma lookup_rate_group (ach : Q) (g : string) :
  is_group g -> lookup_rate ach g = Ok (volume_rate_table ach g).
Proof.
  unfold is_group, lookup_rate, volume_rate_table.
  intros [<- | [<- | [<- | [<- | []]]]]; cmp_cases; reflexivity.
Qed.

(** C5.  With a period selected and a positive PCPM the volume rule returns
    a result whose rate is the table row of the achievement band (from 110:
    0.75/0.90/1.00/1.20 for A/B/C/D; from 105: 0.62/0.70/0.87/1.00; from 100:
    0.50/0.60/0.75/0.80; from 95: 0.25/0.30/0.35/0.40; below 95: 0) and whose
    amount is sale times rate over 100.  Quarter and Annual give the same
    result.  On a non-negative PCPM a result is produced exactly when a
    period is selected and the PCPM is positive.  PCPM 3.0, achievement 101
    and sale 1000000 give Group C, rate 0.75 and amount 7500. *)
Theorem mr_volume_amount (period : string) (pcpm achievement sale : Q)
    (Hperiod : period = "Quarter" \/ period = "Annual")
    (Hpcpm : 0 < pcpm) :
  (exists r,
     mr_volume_incentive_body period pcpm achievement sale = Ok (Some r) /\
     vo_group r = classify_group pcpm /\
     is_group (vo_group r) /\
     (110 <= achievement ->
        vo_rate r == by_group (vo_group r) 0.75 0.90 1.00 1.20) /\
     (105 <= achievement /\ achievement < 110 ->
        vo_rate r == by_group (vo_group r) 0.62 0.70 0.87 1.00) /\
     (100 <= achievement /\ achievement < 105 ->
        vo_rate r == by_group (vo_group r) 0.50 0.60 0.75 0.80) /\
     (95 <= achievement /\ achievement < 100 ->
        vo_rate r == by_group (vo_group r) 0.25 0.30 0.35 0.40) /\
     (achievement < 95 -> vo_rate r == 0) /\
     vo_incentive r == sale * vo_rate r / 100) /\
  mr_volume_incentive_body "Quarter" pcpm achievement sale =
    mr_volume_incentive_body "Annual" pcpm achievement sale /\
  (forall (period' : string) (pcpm' : Q),
     0 <= pcpm' ->
     ((exists r,
         mr_volume_incentive_body period' pcpm' achievement sale = Ok (Some r))
      <-> period' <> "" /\ 0 < pcpm')) /\
  (exists r,
     mr_volume_incentive_body "Quarter" 3.0 101 1000000 = Ok (Some r) /\
     vo_group r = "Group C" /\ vo_rate r == 0.75 /\ vo_incentive r == 7500).
Proof.
  split_all.
  - pose proof (classify_group_is_group pcpm Hpcpm) as Hg.
    unfold mr_volume_incentive_body.
    assert (Ht : Py.truthy_str period = true)
      by (destruct Hperiod; subst; reflexivity).
    rewrite Ht. destruct (truthy_strP (classify_group pcpm)) as [_|Hn];
      [|exfalso; apply Hn; intro E; rewrite E in Hg;
        destruct Hg as [H|[H|[H|[H|[]]]]]; discriminate H].
    rewrite (lookup_rate_group _ _ Hg). cbn [andb Py.bind].
    eexists. split; [reflexivity|]. cbn [vo_group vo_rate vo_incentive].
    split; [reflexivity|]. split; [exact Hg|].
    unfold volume_rate_table.
    cmp_cases; split_all; intros; try reflexivity; exfalso; lra.
  - reflexivity.
  - intros period' pcpm' Hp'. unfold mr_volume_incentive_body.
    pose proof (classify_group_truthy pcpm' Hp') as Hiff.
    destruct (truthy_strP period') as [Hs|Hs];
      destruct (Py.truthy_str (classify_group pcpm')) eqn:Hc; cbn [andb].
    + assert (Hpos : 0 < pcpm') by (apply Hiff; reflexivity).
      rewrite (lookup_rate_group _ _ (classify_group_is_group _ Hpos)).
      cbn [Py.bind]. split; [intros _; split; assumption|intros _; eexists; reflexivity].
    + split; [intros [r Hr]; discriminate Hr|].
      intros [_ Hpos]. apply Hiff in Hpos. discriminate Hpos.
    + split; [intros [r Hr]; discriminate Hr|tauto].
    + split; [intros [r Hr]; discriminate Hr|tauto].
  - eexists. split; [reflexivity|]. cbn [vo_group vo_rate vo_incentive].
    split_all; reflexivity.
Qed.

Lemma mr_volume_amount_witness :
  ("Annual" = "Quarter" \/ "Annual" = "Annual") /\ 0 < 2 /\
  exists r,
    mr_volume_incentive_body "Annual" 2 96 500000 = Ok (Some r) /\
    vo_incentive r == 500000 * vo_rate r / 100.
Proof.
  assert (H1 : "Annual" = "Quarter" \/ "Annual" = "Annual") by (right; reflexivity).
  assert (H2 : 0 < 2) by lra.
  split; [exact H1|]. split; [exact H2|].
  destruct (mr_volume_amount "Annual" 2 96 500000 H1 H2)
    as [[r [Hr [_ [_ [_ [_ [_ [_ [_ Hi]]]]]]]]] _].
  exists r. split; [exact Hr|exact Hi].
Defined.

(** ** Manager incentive *)

Lemma manager_amount_returns (multiplier pool : Q) (team : Z) :
  exists a, manager_amount multiplier pool team = Ok a /\
    (team <> 0%Z -> 0 <= multiplier -> a == pool / inject_Z team * multiplier) /\
    (team = 0%Z -> a == 0) /\
    (multiplier <= 0 -> a == 0).
Proof.
  unfold manager_amount.
  destruct (gtP multiplier 0) as [Hm|Hm].
  - destruct (truthy_intP team) as [Ht|Ht].
    + rewrite (truediv_int _ _ Ht). cbn [Py.bind]. eexists. split; [reflexivity|].
      split_all; intros; try reflexivity; try tauto; exfalso; lra.
    + cbn [Py.bind]. eexists. split; [reflexivity|].
      split_all; intros; try tauto; try lra.
  - eexists. split; [reflexivity|].
    split_all; intros; try reflexivity.
    assert (E : multiplier == 0) by lra. rewrite E. lra.
Qed.

Lemma manager_body_returns (thr : Z) (high ach pool : Q) (team : Z) (pct : Q) :
  team <> 0%Z ->
  exists res,
    manager_incentive_body thr high ach pool team pct = Ok res /\
    mg_eligible res = Py.ge pct (inject_Z thr) /\
    mg_multiplier res = manager_multiplier (mg_eligible res) high ach /\
    (0 <= mg_multiplier res ->
       mg_incentive res == pool / inject_Z team * mg_multiplier res) /\
    (mg_multiplier res <= 0 -> mg_incentive res == 0).
Proof.
  intro Ht. unfold manager_incentive_body.
  destruct (manager_amount_returns
              (manager_multiplier (Py.ge pct (inject_Z thr)) high ach) pool team)
    as [a [Ha [Hpos [_ Hzero]]]].
  rewrite Ha. cbn [Py.bind]. rewrite (truediv_int _ _ Ht).
  destruct (Py.ge pct (inject_Z thr)); cbn [Py.bind];
    eexists; (split; [reflexivity|]);
    cbn [mg_eligible mg_multiplier mg_incentive]; split_all; auto.
Qed.

(** C6.  The three roles of [main] are ASM (threshold 60, multiplier 1.5),
    RSM/BM (50, 1.3) and ZBM (40, 1.2).  For each of them and a team of at
    least one, the rule returns a result; the role is eligible exactly when
    the percentage of earning MRs reaches the threshold; an ineligible role
    gets amount 0; an eligible one gets the role's multiplier from
    achievement 100, multiplier 1.0 on [95, 100), multiplier 0 below, and
    the amount pool / team size times multiplier.  For ASM, 59 percent
    gives amount 0 whatever the other inputs, and 65 percent at achievement
    100 with pool 300000 and team 10 gives 45000. *)
Theorem manager_role_amount (r : role) (achievement pool : Q) (team : Z) (pct : Q)
    (Hrole : In r main_roles) (Hteam : (1 <= team)%Z) :
  map (fun r => (role_name r, role_threshold r, role_high_multiplier r))
      main_roles
    = [("ASM", 60%Z, 1.5); ("RSM/BM", 50%Z, 1.3); ("ZBM", 40%Z, 1.2)] /\
  (exists res,
     role_incentive_body r achievement pool team pct = Ok res /\
     (mg_eligible res = true <-> inject_Z (role_threshold r) <= pct) /\
     (mg_eligible res = false -> mg_incentive res == 0) /\
     (mg_eligible res = true ->
        (100 <= achievement -> mg_multiplier res == role_high_multiplier r) /\
        (95 <= achievement /\ achievement < 100 -> mg_multiplier res == 1.0) /\
        (achievement < 95 -> mg_multiplier res == 0) /\
        mg_incentive res == pool / inject_Z team * mg_multiplier res)) /\
  (forall (achievement' pool' : Q) (team' : Z),
     exists res,
       role_incentive_body ASM achievement' pool' team' 59 = Ok res /\
       mg_eligible res = false /\ mg_incentive res == 0) /\
  (exists res,
     role_incentive_body ASM 100 300000 10 65 = Ok res /\
     mg_eligible res = true /\ mg_multiplier res == 1.5 /\
     mg_incentive res == 45000).
Proof.
  split; [reflexivity|]. split; [|split].
  - assert (Hhigh : 0 < role_high_multiplier r)
      by (destruct Hrole as [<-|[<-|[<-|[]]]]; cbn; lra).
    destruct (manager_body_returns (role_threshold r) (role_high_multiplier r)
                achievement pool team pct)
      as [res [Hres [He [Hm [Hpos Hzero]]]]]; [lia|].
    exists res. split; [exact Hres|].
    split; [rewrite He; destruct (geP pct (inject_Z (role_threshold r))); split;
            intros; auto; try discriminate; tauto|].
    split.
    + intro Hf. apply Hzero. rewrite Hm, Hf. cbn. lra.
    + intro Htrue. rewrite Hm, Htrue in *. unfold manager_multiplier in *.
      revert Hpos Hzero. cmp_cases; intros Hpos Hzero;
        split_all; intros; try reflexivity; try (exfalso; lra);
        apply Hpos; lra.
  - intros achievement' pool' team'. eexists. split; [reflexivity|].
    cbn [mg_eligible mg_incentive]. split; reflexivity.
  - eexists. split; [reflexivity|]. cbn [mg_eligible mg_multiplier mg_incentive].
    split_all; reflexivity.
Qed.

Lemma manager_role_amount_witness :
  In ZBM main_roles /\ (1 <= 4)%Z /\
  exists res,
    role_incentive_body ZBM 97 80000 4 40 = Ok res /\
    (mg_eligible res = true <-> inject_Z (role_threshold ZBM) <= 40).
Proof.
  assert (H1 : In ZBM main_roles) by (simpl; tauto).
  assert (H2 : (1 <= 4)%Z) by lia.
  split; [exact H1|]. split; [exact H2|].
  destruct (manager_role_amount ZBM 97 80000 4 40 H1 H2)
    as [_ [[res [Hres [He _]]] _]].
  exists res. split; [exact Hres|exact He].
Defined.

(** ** Resplash Super 30 *)

(** C7.  On non-negative base and current units the incremental units are
    max(current - base, 0); with none the rule produces no result;
    otherwise the result carries the slab and rate of the incremental units
    (below 1500 no incentive at rate 0, then Aspire 0.75, Eminence 1.00,
    Pinnacle 1.25 and, from 6000, Summit 1.50), the precision amount
    incremental times rate, and the excellence flag incremental >= 7500,
    which looks at the incremental units only.  Base 1000 and current 3200
    give 2200, Aspire, 0.75, 1650 and no excellence. *)
Theorem resplash_slab_rate_amount (base_units current_units : Z)
    (Hbase : (0 <= base_units)%Z) (Hcurrent : (0 <= current_units)%Z) :
  incremental_units base_units current_units
    = Z.max (current_units - base_units) 0 /\
  (incremental_units base_units current_units = 0%Z ->
     resplash_incentive_body base_units current_units = None) /\
  ((0 < incremental_units base_units current_units)%Z ->
     exists r,
       resplash_incentive_body base_units current_units = Some r /\
       rs_incremental r = incremental_units base_units current_units /\
       ((rs_incremental r < 1500)%Z ->
          rs_slab r = "No Incentive" /\ rs_rate r == 0) /\
       ((1500 <= rs_incremental r < 3000)%Z ->
          rs_slab r = "Aspire" /\ rs_rate r == 0.75) /\
       ((3000 <= rs_incremental r < 4500)%Z ->
          rs_slab r = "Eminence" /\ rs_rate r == 1.00) /\
       ((4500 <= rs_incremental r < 6000)%Z ->
          rs_slab r = "Pinnacle" /\ rs_rate r == 1.25) /\
       ((6000 <= rs_incremental r)%Z ->
          rs_slab r = "Summit" /\ rs_rate r == 1.50) /\
       rs_precision r == inject_Z (rs_incremental r) * rs_rate r /\
       rs_excellence r = (7500 <=? rs_incremental r)%Z) /\
  (exists r,
     resplash_incentive_body 1000 3200 = Some r /\
     rs_incremental r = 2200%Z /\ rs_slab r = "Aspire" /\ rs_rate r == 0.75 /\
     rs_precision r == 1650 /\ rs_excellence r = false).
Proof.
  split; [|split; [|split]].
  - unfold incremental_units.
    destruct (Z.gtb_spec current_units base_units); lia.
  - intro H0. unfold resplash_incentive_body. rewrite H0. reflexivity.
  - intro Hpos. unfold resplash_incentive_body.
    set (n := incremental_units base_units current_units) in *.
    destruct (Z.gtb_spec n 0) as [_|Hn]; [|lia].
    unfold resplash_slab.
    destruct (Z.ltb_spec n 1500);
      [|destruct (Z.ltb_spec n 3000);
        [|destruct (Z.ltb_spec n 4500); [|destruct (Z.ltb_spec n 6000)]]];
      eexists; (split; [reflexivity|]);
      cbn [rs_incremental rs_slab rs_rate rs_precision rs_excellence];
      (split; [reflexivity|]);
      split_all; intros; split_all; try reflexivity; try lia;
      apply Z.geb_leb.
  - eexists. split; [reflexivity|].
    cbn [rs_incremental rs_slab rs_rate rs_precision rs_excellence].
    split_all; reflexivity.
Qed.

Lemma resplash_slab_rate_amount_witness :
  (0 <= 2000)%Z /\ (0 <= 9800)%Z /\
  incremental_units 2000 9800 = Z.max (9800 - 2000) 0.
Proof.
  assert (H1 : (0 <= 2000)%Z) by lia.
  assert (H2 : (0 <= 9800)%Z) by lia.
  split; [exact H1|]. split; [exact H2|].
  exact (proj1 (resplash_slab_rate_amount 2000 9800 H1 H2)).
Defined.

(** ** Flat brand tables *)

(** An index inside a table of [len] entries is a position of it. *)
Lemma index_of_nat (n : Z) (len : nat) :
  (0 <= n < Z.of_nat len)%Z -> exists k : nat, n = Z.of_nat k /\ (k < len)%nat.
Proof.
  intro Hn. exists (Z.to_nat n). split; lia.
Qed.

Lemma eminent_lookup (g : string) (n : Z) :
  is_group g -> (0 <= n <= 11)%Z ->
  exists row,
    Py.getitem_dict eminent_amounts g = Ok row /\
    List.length row = 12%nat /\
    Py.getitem_list row n = Ok (n * eminent_step g)%Z.
Proof.
  intros Hg Hn.
  destruct (index_of_nat n 12) as [k [-> Hk]]; [lia|].
  destruct Hg as [<- | [<- | [<- | [<- | []]]]];
    eexists; (split; [reflexivity|]); (split; [reflexivity|]);
    do 12 (destruct k as [|k]; [reflexivity|]); lia.
Qed.

Lemma quarterly_lookup (g : string) (n : Z) :
  is_group g -> (0 <= n <= 4)%Z ->
  exists row,
    Py.getitem_dict quarterly_amounts g = Ok row /\
    List.length row = 5%nat /\
    Py.getitem_list row n = Ok (n * quarterly_step g)%Z.
Proof.
  intros Hg Hn.
  destruct (index_of_nat n 5) as [k [-> Hk]]; [lia|].
  destruct Hg as [<- | [<- | [<- | [<- | []]]]];
    eexists; (split; [reflexivity|]); (split; [reflexivity|]);
    do 5 (destruct k as [|k]; [reflexivity|]); lia.
Qed.

Lemma classify_group_nonneg (p : Q) :
  0 <= p ->
  (classify_group p = "" /\ p == 0) \/ (is_group (classify_group p) /\ 0 < p).
Proof.
  intro Hp. destruct (Qlt_le_dec 0 p) as [H|H].
  - right. split; [now apply classify_group_is_group|exact H].
  - left. assert (E : p == 0) by lra. split; [|exact E].
    unfold classify_group. destruct (truthyP p); tauto.
Qed.

Lemma is_group_truthy (g : string) : is_group g -> Py.truthy_str g = true.
Proof. intros [<- | [<- | [<- | [<- | []]]]]; reflexivity. Qed.

Lemma mr_brand_body_in_range (pcpm : Q) (n : Z) :
  0 <= pcpm -> (0 <= n <= 11)%Z ->
  (pcpm == 0 /\ mr_brand_incentive_body pcpm n = Ok None) \/
  (0 < pcpm /\
   mr_brand_incentive_body pcpm n
     = Ok (Some {| fl_group := classify_group pcpm;
                   fl_incentive := (n * eminent_step (classify_group pcpm))%Z |})).
Proof.
  intros Hp Hn. unfold mr_brand_incentive_body.
  destruct (classify_group_nonneg pcpm Hp) as [[E H0] | [Hg Hpos]].
  - left. rewrite E. split; [exact H0|reflexivity].
  - right. split; [exact Hpos|].
    rewrite (is_group_truthy _ Hg).
    destruct (eminent_lookup _ n Hg Hn) as [row [Hrow [_ Hv]]].
    rewrite Hrow. cbn [Py.bind]. rewrite Hv. reflexivity.
Qed.

Lemma mr_quarterly_body_in_range (pcpm : Q) (n : Z) :
  0 <= pcpm -> (0 <= n <= 4)%Z ->
  (pcpm == 0 /\ mr_quarterly_brand_incentive_body pcpm n = Ok None) \/
  (0 < pcpm /\
   mr_quarterly_brand_incentive_body pcpm n
     = Ok (Some {| fl_group := classify_group pcpm;
                   fl_incentive := (n * quarterly_step (classify_group pcpm))%Z |})).
Proof.
  intros Hp Hn. unfold mr_quarterly_brand_incentive_body.
  destruct (classify_group_nonneg pcpm Hp) as [[E H0] | [Hg Hpos]].
  - left. rewrite E. split; [exact H0|reflexivity].
  - right. split; [exact Hpos|].
    rewrite (is_group_truthy _ Hg).
    destruct (quarterly_lookup _ n Hg Hn) as [row [Hrow [_ Hv]]].
    rewrite Hrow. cbn [Py.bind]. rewrite Hv. reflexivity.
Qed.

(** The lookup itself does not clamp: past the widget, a count of 12 is
    outside the Eminent 11 table and a negative count reads it from its
    end. *)
Example mr_brand_body_unclamped :
  mr_brand_incentive_body 1 12 = Raise IndexError /\
  mr_brand_incentive_body 1 (-1) = Ok (Some {| fl_group := "Group A"; fl_incentive := 11000 |}) /\
  mr_quarterly_brand_incentive_body 1 5 = Raise IndexError.
Proof. split_all; reflexivity. Qed.

(** C1.  Every group has a row of 12 amounts in the Eminent 11 table and a
    row of 5 in the quarterly table.  The count never reaches the lookup
    out of range: the count widget keeps exactly the counts 1 to 11 (1 to 4
    for the quarterly rule) and stops every other one at the input, and
    with a count it keeps the rule returns its result, so that for no
    entered count does the rule end in an [IndexError]. *)
Theorem brand_lookup_in_bounds (pcpm_entry : Q) (count_entry : Z) :
  (forall g, is_group g ->
     exists row, Py.getitem_dict eminent_amounts g = Ok row /\
                 List.length row = 12%nat) /\
  (forall g, is_group g ->
     exists row, Py.getitem_dict quarterly_amounts g = Ok row /\
                 List.length row = 5%nat) /\
  (mr_brand_incentive pcpm_entry count_entry = None <->
     pcpm_entry < 0 \/ (count_entry < 1)%Z \/ (11 < count_entry)%Z) /\
  (mr_brand_incentive pcpm_entry count_entry = None \/
   exists res, mr_brand_incentive pcpm_entry count_entry = Some (Ok res)) /\
  (mr_quarterly_brand_incentive pcpm_entry count_entry = None <->
     pcpm_entry < 0 \/ (count_entry < 1)%Z \/ (4 < count_entry)%Z) /\
  (mr_quarterly_brand_incentive pcpm_entry count_entry = None \/
   exists res,
     mr_quarterly_brand_incentive pcpm_entry count_entry = Some (Ok res)).
Proof.
  split; [|split].
  - intros g Hg. destruct (eminent_lookup g 0 Hg) as [row [H1 [H2 _]]]; [lia|].
    exists row. auto.
  - intros g Hg. destruct (quarterly_lookup g 0 Hg) as [row [H1 [H2 _]]]; [lia|].
    exists row. auto.
  - unfold mr_brand_incentive, mr_quarterly_brand_incentive,
      St.number_input_float, St.number_input.
    destruct (ltP pcpm_entry 0) as [Hp|Hp].
    + split_all; try (split; [intros _; left; exact Hp|reflexivity]);
        left; reflexivity.
    + assert (Hp' : 0 <= pcpm_entry) by lra.
      destruct (Z.ltb_spec count_entry 1) as [H1|H1].
      * split_all; try (split; [intros _; right; left; exact H1|reflexivity]);
          left; reflexivity.
      * split_all.
        -- destruct (Z.ltb_spec 11 count_entry) as [H11|H11].
           ++ split; [intros _; right; right; exact H11|reflexivity].
           ++ split; [intro H; discriminate H|intros [H|[H|H]]; [lra|lia|lia]].
        -- destruct (Z.ltb_spec 11 count_entry) as [H11|H11].
           ++ left; reflexivity.
           ++ right.
              destruct (mr_brand_body_in_range pcpm_entry count_entry Hp')
                as [[_ E]|[_ E]]; [lia| |]; rewrite E; eexists; reflexivity.
        -- destruct (Z.ltb_spec 4 count_entry) as [H4|H4].
           ++ split; [intros _; right; right; exact H4|reflexivity].
           ++ split; [intro H; discriminate H|intros [H|[H|H]]; [lra|lia|lia]].
        -- destruct (Z.ltb_spec 4 count_entry) as [H4|H4].
           ++ left; reflexivity.
           ++ right.
              destruct (mr_quarterly_body_in_range pcpm_entry count_entry Hp')
                as [[_ E]|[_ E]]; [lia| |]; rewrite E; eexists; reflexivity.
Qed.

Lemma brand_lookup_in_bounds_witness :
  is_group "Group C" /\
  exists row, Py.getitem_dict eminent_amounts "Group C" = Ok row /\
              List.length row = 12%nat.
Proof.
  assert (H : is_group "Group C") by (unfold is_group; simpl; tauto).
  split; [exact H|].
  exact (proj1 (brand_lookup_in_bounds 3 7) "Group C" H).
Defined.

(** ** Division by zero *)



Lemma manager_incentive_accepts (name : string) (thr : Z) (high a t : Q)
    (c : Z) (p : Q) (x : outcome manager_result) :
  manager_incentive name thr high a t c p = Some x ->
  0 <= a /\ 0 <= t /\ (1 <= c)%Z /\ 0 <= p /\ p <= 100 /\
  x = manager_incentive_body thr high a t c p.
Proof.
  unfold manager_incentive.
  destruct (St.number_input_float 0 None a) as [a'|] eqn:Ea; [|discriminate].
  destruct (St.number_input_float 0 None t) as [t'|] eqn:Et; [|discriminate].
  destruct (St.number_input 1 None c) as [c'|] eqn:Ec; [|discriminate].
  destruct (St.number_input_float 0 (Some 100) p) as [p'|] eqn:Ep; [|discriminate].
  apply number_input_float_some in Ea as [-> [Ha _]].
  apply number_input_float_some in Et as [-> [Ht _]].
  apply number_input_some in Ec as [-> [Hc _]].
  apply number_input_float_some in Ep as [-> [Hp Hp']].
  intro E; injection E as <-. repeat apply conj; auto.
Qed.



(** ** What the widgets let through *)

Ltac accept_float E :=
  let H := fresh "Hlo" in apply number_input_float_some in E as [-> [H _]].
Ltac accept_int E :=
  let H := fresh "Hlo" in let H' := fresh "Hhi" in
  apply number_input_some in E as [-> [H H']].

Lemma hyterce_calculator_accepts (p : string) (u m : Z)
    (x : outcome (option hyterce_result)) :
  hyterce_calculator p u m = Some x ->
  (0 <= u)%Z /\ (1 <= m <= 3)%Z /\ x = hyterce_calculator_body p u m.
Proof.
  unfold hyterce_calculator.
  destruct (St.selectbox _ p) as [p'|] eqn:Ep; [|discriminate].
  destruct (St.number_input 0 None u) as [u'|] eqn:Eu; [|discriminate].
  destruct (St.number_input 1 (Some 3%Z) m) as [m'|] eqn:Em; [|discriminate].
  apply selectbox_some in Ep as [-> _]. accept_int Eu. accept_int Em.
  intro E; injection E as <-. repeat apply conj; auto; lia.
Qed.

Lemma mr_annual_incentive_accepts (p a s : Q) (x : option annual_result) :
  mr_annual_incentive p a s = Some x ->
  0 <= p /\ 0 <= a /\ 0 <= s /\ x = mr_annual_incentive_body p a s.
Proof.
  unfold mr_annual_incentive.
  destruct (St.number_input_float 0 None p) as [p'|] eqn:Ep; [|discriminate].
  destruct (St.number_input_float 0 None a) as [a'|] eqn:Ea; [|discriminate].
  destruct (St.number_input_float 0 None s) as [s'|] eqn:Es; [|discriminate].
  accept_float Ep. accept_float Ea. accept_float Es.
  intro E; injection E as <-. repeat apply conj; auto.
Qed.

Lemma mr_volume_incentive_accepts (period : string) (p a s : Q)
    (x : outcome (option volume_result)) :
  mr_volume_incentive period p a s = Some x ->
  0 <= p /\ 0 <= a /\ 0 <= s /\ x = mr_volume_incentive_body period p a s.
Proof.
  unfold mr_volume_incentive.
  destruct (St.selectbox _ period) as [q|] eqn:Eq; [|discriminate].
  destruct (St.number_input_float 0 None p) as [p'|] eqn:Ep; [|discriminate].
  destruct (St.number_input_float 0 None a) as [a'|] eqn:Ea; [|discriminate].
  destruct (St.number_input_float 0 None s) as [s'|] eqn:Es; [|discriminate].
  apply selectbox_some in Eq as [-> _].
  accept_float Ep. accept_float Ea. accept_float Es.
  intro E; injection E as <-. repeat apply conj; auto.
Qed.

Lemma mr_brand_incentive_accepts (p : Q) (n : Z)
    (x : outcome (option flat_result)) :
  mr_brand_incentive p n = Some x ->
  0 <= p /\ (1 <= n <= 11)%Z /\ x = mr_brand_incentive_body p n.
Proof.
  unfold mr_brand_incentive.
  destruct (St.number_input_float 0 None p) as [p'|] eqn:Ep; [|discriminate].
  destruct (St.number_input 1 (Some 11%Z) n) as [n'|] eqn:En; [|discriminate].
  accept_float Ep. accept_int En.
  intro E; injection E as <-. repeat apply conj; auto.
Qed.

Lemma mr_quarterly_brand_incentive_accepts (p : Q) (n : Z)
    (x : outcome (option flat_result)) :
  mr_quarterly_brand_incentive p n = Some x ->
  0 <= p /\ (1 <= n <= 4)%Z /\ x = mr_quarterly_brand_incentive_body p n.
Proof.
  unfold mr_quarterly_brand_incentive.
  destruct (St.number_input_float 0 None p) as [p'|] eqn:Ep; [|discriminate].
  destruct (St.number_input 1 (Some 4%Z) n) as [n'|] eqn:En; [|discriminate].
  accept_float Ep. accept_int En.
  intro E; injection E as <-. repeat apply conj; auto.
Qed.

Lemma resplash_incentive_accepts (b c : Z) (x : option resplash_result) :
  resplash_incentive b c = Some x ->
  (0 <= b)%Z /\ (0 <= c)%Z /\ x = resplash_incentive_body b c.
Proof.
  unfold resplash_incentive.
  destruct (St.number_input 0 None b) as [b'|] eqn:Eb; [|discriminate].
  destruct (St.number_input 0 None c) as [c'|] eqn:Ec; [|discriminate].
  accept_int Eb. accept_int Ec.
  intro E; injection E as <-. repeat apply conj; auto.
Qed.

(** ** Signs and order of the tables *)

Lemma Qdiv_int_nonneg (u m : Z) :
  (0 <= u)%Z -> (0 < m)%Z -> 0 <= inject_Z u / inject_Z m.
Proof.
  intros Hu Hm. apply Qle_shift_div_l.
  - change 0 with (inject_Z 0). rewrite <- Zlt_Qlt. exact Hm.
  - rewrite Qmult_0_l. change 0 with (inject_Z 0). rewrite <- Zle_Qle. exact Hu.
Qed.

Lemma Qdiv_int_mono (u1 u2 m : Z) :
  (u1 <= u2)%Z -> (0 < m)%Z ->
  inject_Z u1 / inject_Z m <= inject_Z u2 / inject_Z m.
Proof.
  intros Hu Hm. unfold Qdiv. apply Qmult_le_compat_r.
  - rewrite <- Zle_Qle. exact Hu.
  - apply Qinv_le_0_compat. change 0 with (inject_Z 0).
    rewrite <- Zle_Qle. lia.
Qed.

Ltac split_ifs :=
  repeat match goal with
         | |- context [if ?b then _ else _] => destruct b
         end.

Lemma annual_multiplier_nonneg (ach : Q) (g : string) :
  0 <= annual_multiplier ach g.
Proof.
  unfold annual_multiplier.
  split_ifs; lra.
Qed.

Lemma volume_rate_table_nonneg (ach : Q) (g : string) :
  0 <= volume_rate_table ach g.
Proof.
  unfold volume_rate_table, by_group.
  split_ifs; lra.
Qed.

Lemma eminent_step_nonneg (g : string) : (0 <= eminent_step g)%Z.
Proof.
  unfold eminent_step.
  split_ifs; lia.
Qed.

Lemma quarterly_step_nonneg (g : string) : (0 <= quarterly_step g)%Z.
Proof.
  unfold quarterly_step.
  split_ifs; lia.
Qed.

Lemma resplash_slab_rate (n : Z) :
  0 <= snd (resplash_slab n) /\
  snd (resplash_slab n) = 
    (if (fst (resplash_slab n) =? "No Incentive")%string then 0
     else if (fst (resplash_slab n) =? "Aspire")%string then 0.75
     else if (fst (resplash_slab n) =? "Eminence")%string then 1.00
     else if (fst (resplash_slab n) =? "Pinnacle")%string then 1.25
     else 1.50).
Proof.
  unfold resplash_slab.
  repeat match goal with
         | |- context [if (?a <? ?b)%Z then _ else _] => destruct (a <? b)%Z
         end; cbn; split; try reflexivity; lra.
Qed.

Lemma hyterce_body_some (p : string) (u m : Z) (r : hyterce_result) :
  hyterce_calculator_body p u m = Ok (Some r) -> m <> 0%Z ->
  hy_pcpm r = inject_Z u / inject_Z m /\
  hy_incentive r = hy_pcpm r * inject_Z (hy_rate r) /\
  hy_rate r = hyterce_rate_table p (hy_slab r) /\
  (0 <= hy_rate r)%Z.
Proof.
  intros Hr Hm.
  destruct (Py.truthy_str p) eqn:Hp;
    [|unfold hyterce_calculator_body in Hr; rewrite Hp in Hr; discriminate Hr].
  destruct (hyterce_body_months p u m Hp Hm)
    as [r' [Hr' [Hq [Hi [_ [_ [_ [_ [Ht Hn]]]]]]]]].
  rewrite Hr in Hr'. injection Hr' as <-. auto.
Qed.

Lemma manager_multiplier_nonneg (e : bool) (high ach : Q) :
  0 <= high -> 0 <= manager_multiplier e high ach.
Proof.
  intro Hh. unfold manager_multiplier.
  split_ifs; lra.
Qed.

Lemma Qmult_div_nonneg (x y : Q) (n : Z) :
  0 <= x -> 0 <= y -> (0 < n)%Z -> 0 <= x / inject_Z n * y.
Proof.
  intros Hx Hy Hn. apply Qmult_le_0_compat; [|exact Hy].
  apply Qle_shift_div_l.
  - change 0 with (inject_Z 0). rewrite <- Zlt_Qlt. exact Hn.
  - lra.
Qed.

Lemma main_roles_high_positive (ro : role) :
  In ro main_roles -> 0 < role_high_multiplier ro.
Proof. intros [<-|[<-|[<-|[]]]]; cbn; lra. Qed.

(** ** Non-negative rates and amounts *)

Lemma hyterce_nonneg (p : string) (u m : Z) (r : hyterce_result) :
  (0 <= u)%Z -> (1 <= m <= 3)%Z ->
  hyterce_calculator_body p u m = Ok (Some r) ->
  0 <= hy_pcpm r /\ (0 <= hy_rate r)%Z /\ 0 <= hy_incentive r.
Proof.
  intros Hu Hm Hr.
  destruct (hyterce_body_some p u m r Hr) as [Hq [Hi [_ Hn]]]; [lia|].
  assert (Hpc : 0 <= hy_pcpm r)
    by (rewrite Hq; apply Qdiv_int_nonneg; lia).
  split_all; [exact Hpc|exact Hn|].
  rewrite Hi. apply Qmult_le_0_compat; [exact Hpc|].
  change 0 with (inject_Z 0). rewrite <- Zle_Qle. exact Hn.
Qed.

Lemma mr_annual_nonneg (pcpm ach salary : Q) (r : annual_result) :
  0 <= salary ->
  mr_annual_incentive_body pcpm ach salary = Some r ->
  0 <= an_multiplier r /\ 0 <= an_incentive r.
Proof.
  intros Hs Hr. unfold mr_annual_incentive_body in Hr.
  destruct (Py.truthy_str (classify_group pcpm)); [|discriminate Hr].
  injection Hr as <-. cbn [an_multiplier an_incentive].
  pose proof (annual_multiplier_nonneg ach (classify_group pcpm)) as Hm.
  split; [exact Hm|]. apply Qmult_le_0_compat; assumption.
Qed.

Lemma mr_volume_body_some (period : string) (pcpm ach sale : Q)
    (r : volume_result) :
  0 <= pcpm ->
  mr_volume_incentive_body period pcpm ach sale = Ok (Some r) ->
  r = {| vo_group := classify_group pcpm;
         vo_rate := volume_rate_table ach (classify_group pcpm);
         vo_incentive :=
           sale * volume_rate_table ach (classify_group pcpm) / 100 |}.
Proof.
  intros Hp Hr. unfold mr_volume_incentive_body in Hr.
  destruct (Py.truthy_str period); [|discriminate Hr].
  destruct (Py.truthy_str (classify_group pcpm)) eqn:Hg; [|discriminate Hr].
  apply (classify_group_truthy pcpm Hp) in Hg.
  rewrite (lookup_rate_group _ _ (classify_group_is_group _ Hg)) in Hr.
  cbn [andb Py.bind] in Hr. injection Hr as <-. reflexivity.
Qed.

Lemma mr_volume_nonneg (period : string) (pcpm ach sale : Q)
    (r : volume_result) :
  0 <= pcpm -> 0 <= sale ->
  mr_volume_incentive_body period pcpm ach sale = Ok (Some r) ->
  0 <= vo_rate r /\ 0 <= vo_incentive r.
Proof.
  intros Hp Hs Hr. rewrite (mr_volume_body_some _ _ _ _ _ Hp Hr).
  cbn [vo_rate vo_incentive].
  pose proof (volume_rate_table_nonneg ach (classify_group pcpm)) as Hm.
  split; [exact Hm|].
  apply Qle_shift_div_l; [lra|]. rewrite Qmult_0_l.
  apply Qmult_le_0_compat; assumption.
Qed.

Lemma mr_brand_nonneg (pcpm : Q) (n : Z) (r : flat_result) :
  0 <= pcpm -> (1 <= n <= 11)%Z ->
  mr_brand_incentive_body pcpm n = Ok (Some r) ->
  (0 <= fl_incentive r)%Z.
Proof.
  intros Hp Hn Hr.
  destruct (mr_brand_body_in_range pcpm n Hp) as [[_ E]|[_ E]]; [lia| |];
    rewrite E in Hr; [discriminate Hr|].
  injection Hr as <-. cbn [fl_incentive].
  pose proof (eminent_step_nonneg (classify_group pcpm)). nia.
Qed.

Lemma mr_quarterly_brand_nonneg (pcpm : Q) (n : Z) (r : flat_result) :
  0 <= pcpm -> (1 <= n <= 4)%Z ->
  mr_quarterly_brand_incentive_body pcpm n = Ok (Some r) ->
  (0 <= fl_incentive r)%Z.
Proof.
  intros Hp Hn Hr.
  destruct (mr_quarterly_body_in_range pcpm n Hp) as [[_ E]|[_ E]]; [lia| |];
    rewrite E in Hr; [discriminate Hr|].
  injection Hr as <-. cbn [fl_incentive].
  pose proof (quarterly_step_nonneg (classify_group pcpm)). nia.
Qed.

Lemma manager_role_nonneg (ro : role) (ach pool : Q) (team : Z) (pct : Q)
    (res : manager_result) :
  In ro main_roles -> 0 <= pool -> (1 <= team)%Z ->
  role_incentive_body ro ach pool team pct = Ok res ->
  0 <= mg_multiplier res /\ 0 <= mg_incentive res.
Proof.
  intros Hro Hpool Hteam Hres.
  pose proof (main_roles_high_positive ro Hro) as Hhigh.
  destruct (manager_body_returns (role_threshold ro) (role_high_multiplier ro)
              ach pool team pct) as [res' [Hres' [_ [Hm [Hpos _]]]]]; [lia|].
  unfold role_incentive_body in Hres. rewrite Hres in Hres'.
  injection Hres' as <-.
  assert (Hmul : 0 <= mg_multiplier res)
    by (rewrite Hm; apply manager_multiplier_nonneg; lra).
  split; [exact Hmul|]. rewrite (Hpos Hmul).
  apply Qmult_div_nonneg; [exact Hpool|exact Hmul|lia].
Qed.

Lemma resplash_nonneg (base current : Z) (r : resplash_result) :
  resplash_incentive_body base current = Some r ->
  (0 < rs_incremental r)%Z /\ 0 <= rs_rate r /\ 0 <= rs_precision r.
Proof.
  intros Hr. unfold resplash_incentive_body in Hr.
  destruct (Z.gtb_spec (incremental_units base current) 0) as [Hpos|_];
    [|discriminate Hr].
  pose proof (resplash_slab_rate (incremental_units base current)) as [Hrate _].
  destruct (resplash_slab (incremental_units base current)) as [slab rate].
  injection Hr as <-. cbn [rs_incremental rs_rate rs_precision].
  cbn [snd] in Hrate. split_all; [lia|exact Hrate|].
  apply Qmult_le_0_compat; [|exact Hrate].
  change 0 with (inject_Z 0). rewrite <- Zle_Qle. lia.
Qed.

(** C10.  On inputs inside their documented ranges no rule computes a
    negative rate, multiplier or amount: Hyterce on non-negative units and
    one to three months, the annual rule on a non-negative salary, the
    volume rule on a non-negative PCPM and sale, the two brand rules on a
    non-negative PCPM and a count inside the table, the three manager roles
    on a non-negative pool and a team of at least one, and Resplash on any
    units. *)
Theorem incentives_nonnegative :
  (forall p u m r,
     (0 <= u)%Z -> (1 <= m <= 3)%Z ->
     hyterce_calculator_body p u m = Ok (Some r) ->
     0 <= hy_pcpm r /\ (0 <= hy_rate r)%Z /\ 0 <= hy_incentive r) /\
  (forall pcpm ach salary r,
     0 <= salary ->
     mr_annual_incentive_body pcpm ach salary = Some r ->
     0 <= an_multiplier r /\ 0 <= an_incentive r) /\
  (forall period pcpm ach sale r,
     0 <= pcpm -> 0 <= sale ->
     mr_volume_incentive_body period pcpm ach sale = Ok (Some r) ->
     0 <= vo_rate r /\ 0 <= vo_incentive r) /\
  (forall pcpm n r,
     0 <= pcpm -> (1 <= n <= 11)%Z ->
     mr_brand_incentive_body pcpm n = Ok (Some r) ->
     (0 <= fl_incentive r)%Z) /\
  (forall pcpm n r,
     0 <= pcpm -> (1 <= n <= 4)%Z ->
     mr_quarterly_brand_incentive_body pcpm n = Ok (Some r) ->
     (0 <= fl_incentive r)%Z) /\
  (forall ro ach pool team pct res,
     In ro main_roles -> 0 <= pool -> (1 <= team)%Z ->
     role_incentive_body ro ach pool team pct = Ok res ->
     0 <= mg_multiplier res /\ 0 <= mg_incentive res) /\
  (forall base current r,
     resplash_incentive_body base current = Some r ->
     (0 < rs_incremental r)%Z /\ 0 <= rs_rate r /\ 0 <= rs_precision r).
Proof.
  split_all.
  - exact hyterce_nonneg.
  - exact mr_annual_nonneg.
  - exact mr_volume_nonneg.
  - exact mr_brand_nonneg.
  - exact mr_quarterly_brand_nonneg.
  - exact manager_role_nonneg.
  - exact resplash_nonneg.
Qed.

Lemma incentives_nonnegative_witness :
  (0 <= 2100)%Z /\ (1 <= 3 <= 3)%Z /\
  exists r,
    hyterce_calculator_body "Syrup" 2100 3 = Ok (Some r) /\
    0 <= hy_pcpm r /\ (0 <= hy_rate r)%Z /\ 0 <= hy_incentive r.
Proof.
  assert (H1 : (0 <= 2100)%Z) by lia.
  assert (H2 : (1 <= 3 <= 3)%Z) by lia.
  split; [exact H1|]. split; [exact H2|].
  eexists. split; [reflexivity|].
  apply (proj1 incentives_nonnegative "Syrup" 2100%Z 3%Z _ H1 H2).
  reflexivity.
Defined.

(** The ranges of the hypotheses above are the ones the widgets enforce:
    whatever is entered, a calculator that shows a result shows no negative
    amount. *)
Corollary calculators_nonnegative :
  (forall p u m r,
     hyterce_calculator p u m = Some (Ok (Some r)) -> 0 <= hy_incentive r) /\
  (forall p a s r,
     mr_annual_incentive p a s = Some (Some r) -> 0 <= an_incentive r) /\
  (forall period p a s r,
     mr_volume_incentive period p a s = Some (Ok (Some r)) ->
     0 <= vo_incentive r) /\
  (forall p n r,
     mr_brand_incentive p n = Some (Ok (Some r)) -> (0 <= fl_incentive r)%Z) /\
  (forall p n r,
     mr_quarterly_brand_incentive p n = Some (Ok (Some r)) ->
     (0 <= fl_incentive r)%Z) /\
  (forall ro a t c p res,
     In ro main_roles ->
     role_incentive ro a t c p = Some (Ok res) -> 0 <= mg_incentive res) /\
  (forall b c r,
     resplash_incentive b c = Some (Some r) -> 0 <= rs_precision r).
Proof.
  split_all.
  - intros p u m r H.
    apply hyterce_calculator_accepts in H as [Hu [Hm E]].
    symmetry in E. apply (hyterce_nonneg p u m r Hu Hm E).
  - intros p a s r H.
    apply mr_annual_incentive_accepts in H as [_ [_ [Hs E]]].
    symmetry in E. apply (mr_annual_nonneg p a s r Hs E).
  - intros period p a s r H.
    apply mr_volume_incentive_accepts in H as [Hp [_ [Hs E]]].
    symmetry in E. apply (mr_volume_nonneg period p a s r Hp Hs E).
  - intros p n r H.
    apply mr_brand_incentive_accepts in H as [Hp [Hn E]].
    symmetry in E. apply (mr_brand_nonneg p n r Hp Hn E).
  - intros p n r H.
    apply mr_quarterly_brand_incentive_accepts in H as [Hp [Hn E]].
    symmetry in E. apply (mr_quarterly_brand_nonneg p n r Hp Hn E).
  - intros ro a t c p res Hro H. unfold role_incentive in H.
    apply manager_incentive_accepts in H as [_ [Ht [Hc [_ [_ E]]]]].
    symmetry in E. apply (manager_role_nonneg ro a t c p res Hro Ht Hc E).
  - intros b c r H.
    apply resplash_incentive_accepts in H as [_ [_ E]].
    symmetry in E. apply (resplash_nonneg b c r E).
Qed.

(** ** Monotonicity *)

Lemma manager_body_multiplier (thr : Z) (high ach pool : Q) (team : Z) (pct : Q)
    (res : manager_result) :
  manager_incentive_body thr high ach pool team pct = Ok res ->
  mg_multiplier res = manager_multiplier (Py.ge pct (inject_Z thr)) high ach /\
  exists a, manager_amount (mg_multiplier res) pool team = Ok a /\
            mg_incentive res = a.
Proof.
  unfold manager_incentive_body. intro H.
  destruct (manager_amount _ pool team) as [a|e] eqn:Ea; [|discriminate H].
  cbn [Py.bind] in H.
  destruct (Py.ge pct (inject_Z thr)).
  - destruct (Py.truediv pool (inject_Z team)) as [v|e]; [|discriminate H].
    cbn [Py.bind] in H. injection H as <-. cbn [mg_multiplier mg_incentive].
    split; [reflexivity|]. exists a. auto.
  - cbn [Py.bind] in H. injection H as <-. cbn [mg_multiplier mg_incentive].
    split; [reflexivity|]. exists a. auto.
Qed.

Lemma manager_amount_mono (multiplier p1 p2 : Q) (team : Z) (a1 a2 : Q) :
  (0 <= team)%Z -> p1 <= p2 ->
  manager_amount multiplier p1 team = Ok a1 ->
  manager_amount multiplier p2 team = Ok a2 ->
  a1 <= a2.
Proof.
  intros Ht Hp. unfold manager_amount.
  destruct (gtP multiplier 0) as [Hm|Hm].
  - destruct (truthy_intP team) as [Hn|Hn].
    + rewrite !(truediv_int _ _ Hn). cbn [Py.bind].
      intros E1 E2. injection E1 as <-. injection E2 as <-.
      apply Qmult_le_compat_r; [|lra].
      unfold Qdiv. apply Qmult_le_compat_r; [exact Hp|].
      apply Qinv_le_0_compat. change 0 with (inject_Z 0).
      rewrite <- Zle_Qle. exact Ht.
    + cbn [Py.bind]. intros E1 E2. injection E1 as <-. injection E2 as <-. lra.
  - intros E1 E2. injection E1 as <-. injection E2 as <-. lra.
Qed.

Lemma hyterce_mono (p : string) (m u1 u2 : Z) (r1 r2 : hyterce_result) :
  (1 <= m <= 3)%Z -> (u1 <= u2)%Z ->
  hyterce_calculator_body p u1 m = Ok (Some r1) ->
  hyterce_calculator_body p u2 m = Ok (Some r2) ->
  hy_slab r1 = hy_slab r2 ->
  hy_rate r1 = hy_rate r2 /\ hy_incentive r1 <= hy_incentive r2.
Proof.
  intros Hm Hu H1 H2 Hs.
  destruct (hyterce_body_some p u1 m r1 H1) as [Hq1 [Hi1 [Ht1 Hn1]]]; [lia|].
  destruct (hyterce_body_some p u2 m r2 H2) as [Hq2 [Hi2 [Ht2 Hn2]]]; [lia|].
  assert (Hrate : hy_rate r1 = hy_rate r2) by (rewrite Ht1, Ht2, Hs; reflexivity).
  split; [exact Hrate|].
  rewrite Hi1, Hi2, Hq1, Hq2, Hrate.
  apply Qmult_le_compat_r; [apply Qdiv_int_mono; lia|].
  change 0 with (inject_Z 0). rewrite <- Zle_Qle. exact Hn2.
Qed.

Lemma mr_annual_mono (pcpm ach s1 s2 : Q) (r1 r2 : annual_result) :
  s1 <= s2 ->
  mr_annual_incentive_body pcpm ach s1 = Some r1 ->
  mr_annual_incentive_body pcpm ach s2 = Some r2 ->
  an_multiplier r1 = an_multiplier r2 /\ an_incentive r1 <= an_incentive r2.
Proof.
  intros Hs H1 H2. unfold mr_annual_incentive_body in *.
  destruct (Py.truthy_str (classify_group pcpm)); [|discriminate H1].
  injection H1 as <-. injection H2 as <-. cbn [an_multiplier an_incentive].
  split; [reflexivity|].
  apply Qmult_le_compat_r; [exact Hs|apply annual_multiplier_nonneg].
Qed.

Lemma mr_volume_mono (period : string) (pcpm ach s1 s2 : Q)
    (r1 r2 : volume_result) :
  0 <= pcpm -> s1 <= s2 ->
  mr_volume_incentive_body period pcpm ach s1 = Ok (Some r1) ->
  mr_volume_incentive_body period pcpm ach s2 = Ok (Some r2) ->
  vo_rate r1 = vo_rate r2 /\ vo_incentive r1 <= vo_incentive r2.
Proof.
  intros Hp Hs H1 H2.
  rewrite (mr_volume_body_some _ _ _ _ _ Hp H1).
  rewrite (mr_volume_body_some _ _ _ _ _ Hp H2).
  cbn [vo_rate vo_incentive]. split; [reflexivity|].
  pose proof (volume_rate_table_nonneg ach (classify_group pcpm)) as Hm.
  unfold Qdiv. apply Qmult_le_compat_r; [|apply Qinv_le_0_compat; lra].
  apply Qmult_le_compat_r; assumption.
Qed.

Lemma mr_brand_mono (pcpm : Q) (n1 n2 : Z) (r1 r2 : flat_result) :
  0 <= pcpm -> (1 <= n1)%Z -> (n1 <= n2)%Z -> (n2 <= 11)%Z ->
  mr_brand_incentive_body pcpm n1 = Ok (Some r1) ->
  mr_brand_incentive_body pcpm n2 = Ok (Some r2) ->
  fl_group r1 = fl_group r2 /\ (fl_incentive r1 <= fl_incentive r2)%Z.
Proof.
  intros Hp Hn1 Hn Hn2 H1 H2.
  destruct (mr_brand_body_in_range pcpm n1 Hp) as [[_ E1]|[_ E1]]; [lia| |];
    rewrite E1 in H1; [discriminate H1|].
  destruct (mr_brand_body_in_range pcpm n2 Hp) as [[_ E2]|[_ E2]]; [lia| |];
    rewrite E2 in H2; [discriminate H2|].
  injection H1 as <-. injection H2 as <-. cbn [fl_group fl_incentive].
  split; [reflexivity|].
  pose proof (eminent_step_nonneg (classify_group pcpm)). nia.
Qed.

Lemma mr_quarterly_brand_mono (pcpm : Q) (n1 n2 : Z) (r1 r2 : flat_result) :
  0 <= pcpm -> (1 <= n1)%Z -> (n1 <= n2)%Z -> (n2 <= 4)%Z ->
  mr_quarterly_brand_incentive_body pcpm n1 = Ok (Some r1) ->
  mr_quarterly_brand_incentive_body pcpm n2 = Ok (Some r2) ->
  fl_group r1 = fl_group r2 /\ (fl_incentive r1 <= fl_incentive r2)%Z.
Proof.
  intros Hp Hn1 Hn Hn2 H1 H2.
  destruct (mr_quarterly_body_in_range pcpm n1 Hp) as [[_ E1]|[_ E1]]; [lia| |];
    rewrite E1 in H1; [discriminate H1|].
  destruct (mr_quarterly_body_in_range pcpm n2 Hp) as [[_ E2]|[_ E2]]; [lia| |];
    rewrite E2 in H2; [discriminate H2|].
  injection H1 as <-. injection H2 as <-. cbn [fl_group fl_incentive].
  split; [reflexivity|].
  pose proof (quarterly_step_nonneg (classify_group pcpm)). nia.
Qed.

Lemma manager_mono (thr : Z) (high ach : Q) (team : Z) (pct p1 p2 : Q)
    (r1 r2 : manager_result) :
  (1 <= team)%Z -> p1 <= p2 ->
  manager_incentive_body thr high ach p1 team pct = Ok r1 ->
  manager_incentive_body thr high ach p2 team pct = Ok r2 ->
  mg_multiplier r1 = mg_multiplier r2 /\ mg_incentive r1 <= mg_incentive r2.
Proof.
  intros Ht Hp H1 H2.
  destruct (manager_body_multiplier _ _ _ _ _ _ _ H1) as [Hm1 [a1 [Ha1 Hi1]]].
  destruct (manager_body_multiplier _ _ _ _ _ _ _ H2) as [Hm2 [a2 [Ha2 Hi2]]].
  assert (Hm : mg_multiplier r1 = mg_multiplier r2)
    by (rewrite Hm1, Hm2; reflexivity).
  split; [exact Hm|]. rewrite Hi1, Hi2. rewrite Hm in Ha1.
  apply (manager_amount_mono (mg_multiplier r2) p1 p2 team); auto; lia.
Qed.

Lemma resplash_mono (base c1 c2 : Z) (r1 r2 : resplash_result) :
  (c1 <= c2)%Z ->
  resplash_incentive_body base c1 = Some r1 ->
  resplash_incentive_body base c2 = Some r2 ->
  rs_slab r1 = rs_slab r2 ->
  rs_rate r1 = rs_rate r2 /\ rs_precision r1 <= rs_precision r2.
Proof.
  intros Hc H1 H2 Hs. unfold resplash_incentive_body in *.
  destruct (Z.gtb_spec (incremental_units base c1) 0) as [Hp1|_];
    [|discriminate H1].
  destruct (Z.gtb_spec (incremental_units base c2) 0) as [Hp2|_];
    [|discriminate H2].
  pose proof (resplash_slab_rate (incremental_units base c1)) as [Hr1 Ht1].
  pose proof (resplash_slab_rate (incremental_units base c2)) as [Hr2 Ht2].
  assert (Hinc : (incremental_units base c1 <= incremental_units base c2)%Z).
  { unfold incremental_units in *.
    destruct (Z.gtb_spec c1 base); destruct (Z.gtb_spec c2 base); lia. }
  destruct (resplash_slab (incremental_units base c1)) as [slab1 rate1].
  destruct (resplash_slab (incremental_units base c2)) as [slab2 rate2].
  injection H1 as <-. injection H2 as <-.
  cbn [rs_slab rs_rate rs_precision] in *. cbn [fst snd] in *.
  assert (Hrate : rate1 = rate2) by (rewrite Ht1, Ht2, Hs; reflexivity).
  split; [exact Hrate|]. rewrite Hrate.
  apply Qmult_le_compat_r; [|exact Hr2].
  rewrite <- Zle_Qle. exact Hinc.
Qed.

(** C9.  With the other inputs fixed, each rule's amount does not decrease
    when its driving quantity grows and the same slab, band or multiplier
    applies: Hyterce in the units inside one slab, the annual rule in the
    salary, the volume rule in the sale, the two brand rules in the count,
    the manager rule in the pool, and Resplash in the current units inside
    one slab. *)
Theorem amounts_monotone :
  (forall p m u1 u2 r1 r2,
     (1 <= m <= 3)%Z -> (u1 <= u2)%Z ->
     hyterce_calculator_body p u1 m = Ok (Some r1) ->
     hyterce_calculator_body p u2 m = Ok (Some r2) ->
     hy_slab r1 = hy_slab r2 ->
     hy_rate r1 = hy_rate r2 /\ hy_incentive r1 <= hy_incentive r2) /\
  (forall pcpm ach s1 s2 r1 r2,
     s1 <= s2 ->
     mr_annual_incentive_body pcpm ach s1 = Some r1 ->
     mr_annual_incentive_body pcpm ach s2 = Some r2 ->
     an_multiplier r1 = an_multiplier r2 /\ an_incentive r1 <= an_incentive r2) /\
  (forall period pcpm ach s1 s2 r1 r2,
     0 <= pcpm -> s1 <= s2 ->
     mr_volume_incentive_body period pcpm ach s1 = Ok (Some r1) ->
     mr_volume_incentive_body period pcpm ach s2 = Ok (Some r2) ->
     vo_rate r1 = vo_rate r2 /\ vo_incentive r1 <= vo_incentive r2) /\
  (forall pcpm n1 n2 r1 r2,
     0 <= pcpm -> (1 <= n1)%Z -> (n1 <= n2)%Z -> (n2 <= 11)%Z ->
     mr_brand_incentive_body pcpm n1 = Ok (Some r1) ->
     mr_brand_incentive_body pcpm n2 = Ok (Some r2) ->
     fl_group r1 = fl_group r2 /\ (fl_incentive r1 <= fl_incentive r2)%Z) /\
  (forall pcpm n1 n2 r1 r2,
     0 <= pcpm -> (1 <= n1)%Z -> (n1 <= n2)%Z -> (n2 <= 4)%Z ->
     mr_quarterly_brand_incentive_body pcpm n1 = Ok (Some r1) ->
     mr_quarterly_brand_incentive_body pcpm n2 = Ok (Some r2) ->
     fl_group r1 = fl_group r2 /\ (fl_incentive r1 <= fl_incentive r2)%Z) /\
  (forall thr high ach team pct p1 p2 r1 r2,
     (1 <= team)%Z -> p1 <= p2 ->
     manager_incentive_body thr high ach p1 team pct = Ok r1 ->
     manager_incentive_body thr high ach p2 team pct = Ok r2 ->
     mg_multiplier r1 = mg_multiplier r2 /\ mg_incentive r1 <= mg_incentive r2) /\
  (forall base c1 c2 r1 r2,
     (c1 <= c2)%Z ->
     resplash_incentive_body base c1 = Some r1 ->
     resplash_incentive_body base c2 = Some r2 ->
     rs_slab r1 = rs_slab r2 ->
     rs_rate r1 = rs_rate r2 /\ rs_precision r1 <= rs_precision r2).
Proof.
  split_all.
  - exact hyterce_mono.
  - exact mr_annual_mono.
  - exact mr_volume_mono.
  - exact mr_brand_mono.
  - exact mr_quarterly_brand_mono.
  - exact manager_mono.
  - exact resplash_mono.
Qed.

Lemma amounts_monotone_witness :
  (1 <= 3 <= 3)%Z /\ (1500 <= 1700)%Z /\
  exists r1 r2,
    hyterce_calculator_body "Syrup" 1500 3 = Ok (Some r1) /\
    hyterce_calculator_body "Syrup" 1700 3 = Ok (Some r2) /\
    hy_slab r1 = hy_slab r2 /\
    hy_rate r1 = hy_rate r2 /\ hy_incentive r1 <= hy_incentive r2.
Proof.
  assert (H1 : (1 <= 3 <= 3)%Z) by lia.
  assert (H2 : (1500 <= 1700)%Z) by lia.
  split; [exact H1|]. split; [exact H2|].
  eexists. eexists.
  split; [reflexivity|]. split; [reflexivity|]. split; [reflexivity|].
  apply (proj1 amounts_monotone "Syrup" 3%Z 1500%Z 1700%Z _ _ H1 H2);
    reflexivity.
Defined.

(** * Further properties of the calculators *)

(** ** The unclamped table lookup *)

Lemma getitem_list_inside {V : Type} (l : list V) (i : Z) :
  (0 <= i < Z.of_nat (List.length l))%Z ->
  exists v, Py.getitem_list l i = Ok v /\ nth_error l (Z.to_nat i) = Some v.
Proof.
  intro Hi. unfold Py.getitem_list.
  destruct (Z.ltb_spec i 0) as [H|_]; [lia|].
  destruct (Z.leb_spec 0 i) as [_|H]; [|lia].
  destruct (Z.ltb_spec i (Z.of_nat (List.length l))) as [_|H]; [|lia].
  cbn [andb].
  destruct (nth_error l (Z.to_nat i)) as [v|] eqn:E.
  - exists v. auto.
  - apply nth_error_None in E. lia.
Qed.

Lemma getitem_list_wraps {V : Type} (l : list V) (i : Z) :
  (- Z.of_nat (List.length l) <= i < 0)%Z ->
  Py.getitem_list l i = Py.getitem_list l (i + Z.of_nat (List.length l)).
Proof.
  intro Hi. unfold Py.getitem_list.
  destruct (Z.ltb_spec i 0) as [_|H]; [|lia].
  destruct (Z.ltb_spec (i + Z.of_nat (List.length l)) 0) as [H|_]; [lia|].
  reflexivity.
Qed.

Lemma getitem_list_outside {V : Type} (l : list V) (i : Z) :
  (i < - Z.of_nat (List.length l) \/ Z.of_nat (List.length l) <= i)%Z ->
  Py.getitem_list l i = Raise IndexError.
Proof.
  intro Hi. unfold Py.getitem_list.
  destruct (Z.ltb_spec i 0) as [Hn|Hn].
  - destruct (Z.leb_spec 0 (i + Z.of_nat (List.length l))) as [H|_]; [lia|].
    reflexivity.
  - destruct (Z.leb_spec 0 i) as [_|H]; [|lia].
    destruct (Z.ltb_spec i (Z.of_nat (List.length l))) as [H|_]; [lia|].
    reflexivity.
Qed.

Lemma getitem_list_raises_iff {V : Type} (l : list V) (i : Z) :
  Py.getitem_list l i = Raise IndexError <->
  (i < - Z.of_nat (List.length l) \/ Z.of_nat (List.length l) <= i)%Z.
Proof.
  split; [|apply getitem_list_outside].
  intro H.
  destruct (Z_lt_le_dec i (- Z.of_nat (List.length l))) as [|Hlo]; [lia|].
  destruct (Z_lt_le_dec i (Z.of_nat (List.length l))) as [Hhi|]; [|lia].
  exfalso.
  destruct (Z_lt_le_dec i 0) as [Hneg|Hpos].
  - rewrite getitem_list_wraps in H by lia.
    destruct (getitem_list_inside l (i + Z.of_nat (List.length l)))
      as [v [E _]]; [lia|]. rewrite E in H. discriminate H.
  - destruct (getitem_list_inside l i) as [v [E _]]; [lia|].
    rewrite E in H. discriminate H.
Qed.

Lemma classify_group_nonzero (p : Q) :
  ~ p == 0 -> is_group (classify_group p).
Proof.
  intro Hp. unfold is_group.
  destruct (classify_group_cases p)
    as [[H0 _] | [[_ [_ E]] | [[_ [_ E]] | [[_ [_ E]] | [_ E]]]]];
    [tauto| | | |]; rewrite E; simpl; tauto.
Qed.

Lemma classify_group_zero (p : Q) : p == 0 -> classify_group p = "".
Proof.
  intro Hp. unfold classify_group. destruct (truthyP p); tauto.
Qed.

Lemma getitem_list_exn {V : Type} (l : list V) (i : Z) (e : exn) :
  Py.getitem_list l i = Raise e -> e = IndexError.
Proof.
  unfold Py.getitem_list. cbv zeta.
  destruct (_ && _)%bool; [destruct (nth_error _ _)|];
    intro H; first [discriminate H | congruence].
Qed.

Lemma bind_ok_raise_iff {A B : Type} (m : outcome A) (f : A -> B) (e : exn) :
  (x <- m ;; Ok (f x)) = Raise e <-> m = Raise e.
Proof.
  destruct m as [a|e']; cbn [Py.bind]; split; intro H;
    first [discriminate H | congruence].
Qed.

Lemma mr_brand_body_row (p : Q) (n : Z) :
  ~ p == 0 ->
  exists row,
    List.length row = 12%nat /\
    mr_brand_incentive_body p n
      = (incentive <- Py.getitem_list row n ;;
         Ok (Some {| fl_group := classify_group p; fl_incentive := incentive |})).
Proof.
  intro Hp. pose proof (classify_group_nonzero p Hp) as Hg.
  destruct (eminent_lookup _ 0 Hg) as [row [Hrow [Hlen _]]]; [lia|].
  exists row. split; [exact Hlen|].
  unfold mr_brand_incentive_body.
  rewrite (is_group_truthy _ Hg), Hrow. reflexivity.
Qed.

Lemma mr_quarterly_body_row (p : Q) (n : Z) :
  ~ p == 0 ->
  exists row,
    List.length row = 5%nat /\
    mr_quarterly_brand_incentive_body p n
      = (incentive <- Py.getitem_list row n ;;
         Ok (Some {| fl_group := classify_group p; fl_incentive := incentive |})).
Proof.
  intro Hp. pose proof (classify_group_nonzero p Hp) as Hg.
  destruct (quarterly_lookup _ 0 Hg) as [row [Hrow [Hlen _]]]; [lia|].
  exists row. split; [exact Hlen|].
  unfold mr_quarterly_brand_incentive_body.
  rewrite (is_group_truthy _ Hg), Hrow. reflexivity.
Qed.

Lemma flat_body_raises (row : list Z) (g : string) (n : Z) (e : exn) :
  (incentive <- Py.getitem_list row n ;;
   Ok (Some {| fl_group := g; fl_incentive := incentive |})) = Raise e ->
  e = IndexError /\
  (n < - Z.of_nat (List.length row) \/ Z.of_nat (List.length row) <= n)%Z.
Proof.
  intro H. apply bind_ok_raise_iff in H.
  pose proof (getitem_list_exn _ _ _ H) as ->.
  split; [reflexivity|]. now apply getitem_list_raises_iff.
Qed.

(** X1.  With a group defined (PCPM not zero), the Eminent 11 lookup ends in
    [IndexError] exactly for a count below -12 or above 11, and the
    quarterly lookup exactly for a count below -5 or above 4; neither ends
    in any other exception. *)
Theorem flat_lookup_index_error (pcpm : Q) (n : Z) (Hpcpm : ~ pcpm == 0) :
  (mr_brand_incentive_body pcpm n = Raise IndexError
     <-> (n < -12 \/ 11 < n)%Z) /\
  (mr_quarterly_brand_incentive_body pcpm n = Raise IndexError
     <-> (n < -5 \/ 4 < n)%Z) /\
  (forall e, e <> IndexError ->
     mr_brand_incentive_body pcpm n <> Raise e /\
     mr_quarterly_brand_incentive_body pcpm n <> Raise e).
Proof.
  destruct (mr_brand_body_row pcpm n Hpcpm) as [row [Hlen Hb]].
  destruct (mr_quarterly_body_row pcpm n Hpcpm) as [qrow [Hqlen Hq]].
  rewrite Hb, Hq. split_all.
  - rewrite bind_ok_raise_iff, getitem_list_raises_iff, Hlen. lia.
  - rewrite bind_ok_raise_iff, getitem_list_raises_iff, Hqlen. lia.
  - intros e He. split; intro H; apply flat_body_raises in H as [-> _];
      apply He; reflexivity.
Qed.

Lemma flat_lookup_index_error_witness :
  ~ 2 == 0 /\ mr_brand_incentive_body 2 12 = Raise IndexError.
Proof.
  assert (H : ~ 2 == 0) by (intro E; discriminate E).
  split; [exact H|].
  apply (proj1 (flat_lookup_index_error 2 12 H)). lia.
Defined.

(** X2.  A negative count is taken from the end of the row, as Python
    indexes: a count in [-12, -1] pays what the count 12 higher pays in the
    Eminent 11 table, and a count in [-5, -1] what the count 5 higher pays
    in the quarterly table. *)
Theorem flat_lookup_negative_wraps (pcpm : Q) (n : Z) :
  ((-12 <= n < 0)%Z ->
     mr_brand_incentive_body pcpm n = mr_brand_incentive_body pcpm (n + 12)) /\
  ((-5 <= n < 0)%Z ->
     mr_quarterly_brand_incentive_body pcpm n
       = mr_quarterly_brand_incentive_body pcpm (n + 5)).
Proof.
  destruct (Qeq_dec pcpm 0) as [Hz|Hnz].
  - unfold mr_brand_incentive_body, mr_quarterly_brand_incentive_body.
    rewrite (classify_group_zero _ Hz). split; reflexivity.
  - split; intro Hn.
    + pose proof (classify_group_nonzero pcpm Hnz) as Hg.
      unfold mr_brand_incentive_body. rewrite (is_group_truthy _ Hg).
      destruct (eminent_lookup _ 0 Hg) as [r [Hr [Hl _]]]; [lia|].
      rewrite Hr. cbn [Py.bind].
      rewrite (getitem_list_wraps r n) by (rewrite Hl; lia).
      rewrite Hl. reflexivity.
    + pose proof (classify_group_nonzero pcpm Hnz) as Hg.
      unfold mr_quarterly_brand_incentive_body. rewrite (is_group_truthy _ Hg).
      destruct (quarterly_lookup _ 0 Hg) as [r [Hr [Hl _]]]; [lia|].
      rewrite Hr. cbn [Py.bind].
      rewrite (getitem_list_wraps r n) by (rewrite Hl; lia).
      rewrite Hl. reflexivity.
Qed.

Lemma flat_lookup_negative_wraps_witness :
  (-12 <= -1 < 0)%Z /\
  mr_brand_incentive_body 3 (-1) = mr_brand_incentive_body 3 (-1 + 12).
Proof.
  assert (H : (-12 <= -1 < 0)%Z) by lia.
  split; [exact H|].
  exact (proj1 (flat_lookup_negative_wraps 3 (-1)) H).
Defined.

(** ** The flat amounts as a function of count and PCPM *)

Lemma classify_group_bands (p : Q) :
  0 < p ->
  (p < 1.5 -> classify_group p = "Group A") /\
  (1.5 <= p /\ p < 2.5 -> classify_group p = "Group B") /\
  (2.5 <= p /\ p < 4.0 -> classify_group p = "Group C") /\
  (4.0 <= p -> classify_group p = "Group D").
Proof.
  intro Hp.
  destruct (classify_group_cases p)
    as [[H0 E] | [[H0 [H1 E]] | [[H0 [H1 E]] | [[H0 [H1 E]] | [H0 E]]]]];
    split_all; intro H; first [exact E | exfalso; lra].
Qed.

(** A quantity that grows along A, B, C, D grows with the PCPM. *)
Lemma by_rank_mono {T : Type} (le : T -> T -> Prop) (f : string -> T)
    (p1 p2 : Q) :
  (forall x, le x x) ->
  (forall x y z, le x y -> le y z -> le x z) ->
  le (f "Group A") (f "Group B") ->
  le (f "Group B") (f "Group C") ->
  le (f "Group C") (f "Group D") ->
  0 < p1 -> p1 <= p2 ->
  le (f (classify_group p1)) (f (classify_group p2)).
Proof.
  intros Hrefl Htrans Hab Hbc Hcd Hp1 Hle. assert (Hp2 : 0 < p2) by lra.
  destruct (classify_group_positive p1 Hp1)
    as [[H1 E1] | [[H1 [H1' E1]] | [[H1 [H1' E1]] | [H1 E1]]]];
    destruct (classify_group_positive p2 Hp2)
      as [[H2 E2] | [[H2 [H2' E2]] | [[H2 [H2' E2]] | [H2 E2]]]];
    rewrite E1, E2; try (exfalso; lra); eauto 6.
Qed.

Lemma eminent_step_mono (p1 p2 : Q) :
  0 < p1 -> p1 <= p2 ->
  (eminent_step (classify_group p1) <= eminent_step (classify_group p2))%Z.
Proof.
  apply (by_rank_mono Z.le eminent_step); intros; cbn; lia.
Qed.

Lemma quarterly_step_mono (p1 p2 : Q) :
  0 < p1 -> p1 <= p2 ->
  (quarterly_step (classify_group p1) <= quarterly_step (classify_group p2))%Z.
Proof.
  apply (by_rank_mono Z.le quarterly_step); intros; cbn; lia.
Qed.

(** X3.  Each row of the flat tables is an arithmetic progression from 0:
    for a count inside the table the Eminent 11 rule pays count times 1000,
    1500, 2000 or 2500 as the PCPM is below 1.5, below 2.5, below 4.0 or
    not, and the quarterly rule count times 500, 750, 1000 or 1500. *)
Theorem flat_amount_progression (pcpm : Q) (n : Z) (Hpcpm : 0 < pcpm) :
  ((0 <= n <= 11)%Z ->
   exists r,
     mr_brand_incentive_body pcpm n = Ok (Some r) /\
     (pcpm < 1.5 -> fl_incentive r = (n * 1000)%Z) /\
     (1.5 <= pcpm /\ pcpm < 2.5 -> fl_incentive r = (n * 1500)%Z) /\
     (2.5 <= pcpm /\ pcpm < 4.0 -> fl_incentive r = (n * 2000)%Z) /\
     (4.0 <= pcpm -> fl_incentive r = (n * 2500)%Z)) /\
  ((0 <= n <= 4)%Z ->
   exists r,
     mr_quarterly_brand_incentive_body pcpm n = Ok (Some r) /\
     (pcpm < 1.5 -> fl_incentive r = (n * 500)%Z) /\
     (1.5 <= pcpm /\ pcpm < 2.5 -> fl_incentive r = (n * 750)%Z) /\
     (2.5 <= pcpm /\ pcpm < 4.0 -> fl_incentive r = (n * 1000)%Z) /\
     (4.0 <= pcpm -> fl_incentive r = (n * 1500)%Z)).
Proof.
  assert (Hnn : 0 <= pcpm) by lra.
  destruct (classify_group_bands pcpm Hpcpm) as [Ha [Hb [Hc Hd]]].
  split; intro Hn.
  - destruct (mr_brand_body_in_range pcpm n Hnn Hn) as [[H0 _]|[_ E]]; [lra|].
    eexists. split; [exact E|]. cbn [fl_incentive].
    split_all; intro H;
      [rewrite (Ha H)|rewrite (Hb H)|rewrite (Hc H)|rewrite (Hd H)];
      reflexivity.
  - destruct (mr_quarterly_body_in_range pcpm n Hnn Hn) as [[H0 _]|[_ E]]; [lra|].
    eexists. split; [exact E|]. cbn [fl_incentive].
    split_all; intro H;
      [rewrite (Ha H)|rewrite (Hb H)|rewrite (Hc H)|rewrite (Hd H)];
      reflexivity.
Qed.

Lemma flat_amount_progression_witness :
  0 < 3 /\ (0 <= 7 <= 11)%Z /\
  exists r,
    mr_brand_incentive_body 3 7 = Ok (Some r) /\
    (2.5 <= 3 /\ 3 < 4.0 -> fl_incentive r = (7 * 2000)%Z).
Proof.
  assert (H1 : 0 < 3) by lra.
  assert (H2 : (0 <= 7 <= 11)%Z) by lia.
  split; [exact H1|]. split; [exact H2|].
  destruct (proj1 (flat_amount_progression 3 7 H1) H2)
    as [r [Hr [_ [_ [Hc _]]]]].
  exists r. split; [exact Hr|exact Hc].
Defined.

(** X4.  For a fixed count inside the table, a higher PCPM never lowers the
    flat amount, in either brand rule. *)
Theorem flat_amount_grows_with_pcpm (p1 p2 : Q) (n : Z) (r1 r2 : flat_result)
    (Hp1 : 0 < p1) (Hle : p1 <= p2) :
  ((0 <= n <= 11)%Z ->
   mr_brand_incentive_body p1 n = Ok (Some r1) ->
   mr_brand_incentive_body p2 n = Ok (Some r2) ->
   (fl_incentive r1 <= fl_incentive r2)%Z) /\
  ((0 <= n <= 4)%Z ->
   mr_quarterly_brand_incentive_body p1 n = Ok (Some r1) ->
   mr_quarterly_brand_incentive_body p2 n = Ok (Some r2) ->
   (fl_incentive r1 <= fl_incentive r2)%Z).
Proof.
  assert (Hn1 : 0 <= p1) by lra. assert (Hn2 : 0 <= p2) by lra.
  split; intros Hn H1 H2.
  - destruct (mr_brand_body_in_range p1 n Hn1 Hn) as [[H0 _]|[_ E1]]; [lra|].
    destruct (mr_brand_body_in_range p2 n Hn2 Hn) as [[H0 _]|[_ E2]]; [lra|].
    rewrite E1 in H1. rewrite E2 in H2.
    injection H1 as <-. injection H2 as <-. cbn [fl_incentive].
    pose proof (eminent_step_mono p1 p2 Hp1 Hle). nia.
  - destruct (mr_quarterly_body_in_range p1 n Hn1 Hn) as [[H0 _]|[_ E1]]; [lra|].
    destruct (mr_quarterly_body_in_range p2 n Hn2 Hn) as [[H0 _]|[_ E2]]; [lra|].
    rewrite E1 in H1. rewrite E2 in H2.
    injection H1 as <-. injection H2 as <-. cbn [fl_incentive].
    pose proof (quarterly_step_mono p1 p2 Hp1 Hle). nia.
Qed.

Lemma flat_amount_grows_with_pcpm_witness :
  0 < 1 /\ 1 <= 3 /\ (0 <= 5 <= 11)%Z /\
  exists r1 r2,
    mr_brand_incentive_body 1 5 = Ok (Some r1) /\
    mr_brand_incentive_body 3 5 = Ok (Some r2) /\
    (fl_incentive r1 <= fl_incentive r2)%Z.
Proof.
  assert (H1 : 0 < 1) by lra.
  assert (H2 : 1 <= 3) by lra.
  assert (H3 : (0 <= 5 <= 11)%Z) by lia.
  split; [exact H1|]. split; [exact H2|]. split; [exact H3|].
  eexists. eexists. split; [reflexivity|]. split; [reflexivity|].
  apply (proj1 (flat_amount_grows_with_pcpm 1 3 5 _ _ H1 H2) H3);
    reflexivity.
Defined.

(** ** Hyterce across slabs and products *)

Lemma hyterce_band (p : string) (u m : Z) (r : hyterce_result) :
  hyterce_calculator_body p u m = Ok (Some r) -> m <> 0%Z ->
  hy_incentive r = hy_pcpm r * inject_Z (hy_rate r) /\
  ((hy_pcpm r < 200 /\ hy_rate r = 0%Z) \/
   (200 <= hy_pcpm r /\ hy_pcpm r < 400 /\
    hy_rate r = if (p =? "Syrup")%string then 4%Z else 3%Z) \/
   (400 <= hy_pcpm r /\ hy_pcpm r < 600 /\
    hy_rate r = if (p =? "Syrup")%string then 6%Z else 4%Z) \/
   (600 <= hy_pcpm r /\
    hy_rate r = if (p =? "Syrup")%string then 8%Z else 5%Z)).
Proof.
  intros Hr Hm.
  destruct (Py.truthy_str p) eqn:Hp;
    [|unfold hyterce_calculator_body in Hr; rewrite Hp in Hr; discriminate Hr].
  destruct (hyterce_body_months p u m Hp Hm)
    as [r' [Hr' [_ [Hi [H0 [H1 [H2 [H3 _]]]]]]]].
  rewrite Hr in Hr'. injection Hr' as <-.
  split; [exact Hi|].
  destruct (Qlt_le_dec (hy_pcpm r) 200) as [L0|L0];
    [left; split; [exact L0|apply H0; exact L0]|].
  destruct (Qlt_le_dec (hy_pcpm r) 400) as [L1|L1];
    [right; left; repeat apply conj; auto; apply H1; auto|].
  destruct (Qlt_le_dec (hy_pcpm r) 600) as [L2|L2];
    [right; right; left; repeat apply conj; auto; apply H2; auto|].
  right; right; right. split; [exact L2|apply H3; exact L2].
Qed.

(** X5.  For one to three months, more units never pay less, also across
    the slab boundaries: PCPM, per-unit rate and amount all grow with the
    units. *)
Theorem hyterce_grows_with_units (p : string) (m u1 u2 : Z)
    (r1 r2 : hyterce_result)
    (Hm : (1 <= m <= 3)%Z) (Hu : (u1 <= u2)%Z)
    (H1 : hyterce_calculator_body p u1 m = Ok (Some r1))
    (H2 : hyterce_calculator_body p u2 m = Ok (Some r2)) :
  hy_pcpm r1 <= hy_pcpm r2 /\
  (hy_rate r1 <= hy_rate r2)%Z /\
  hy_incentive r1 <= hy_incentive r2.
Proof.
  assert (Hm0 : m <> 0%Z) by lia.
  destruct (hyterce_body_some p u1 m r1 H1 Hm0) as [Hq1 _].
  destruct (hyterce_body_some p u2 m r2 H2 Hm0) as [Hq2 _].
  assert (Hq : hy_pcpm r1 <= hy_pcpm r2)
    by (rewrite Hq1, Hq2; apply Qdiv_int_mono; lia).
  destruct (hyterce_band p u1 m r1 H1 Hm0) as [Hi1 B1].
  destruct (hyterce_band p u2 m r2 H2 Hm0) as [Hi2 B2].
  rewrite Hi1, Hi2.
  set (q1 := hy_pcpm r1) in *. set (q2 := hy_pcpm r2) in *.
  split; [exact Hq|].
  destruct (p =? "Syrup")%string;
    destruct B1 as [[L1 R1]|[[L1 [L1' R1]]|[[L1 [L1' R1]]|[L1 R1]]]];
    destruct B2 as [[L2 R2]|[[L2 [L2' R2]]|[[L2 [L2' R2]]|[L2 R2]]]];
    rewrite R1, R2; try (exfalso; lra); (split; [lia|]);
    unfold inject_Z; lra.
Qed.

Lemma hyterce_grows_with_units_witness :
  (1 <= 3 <= 3)%Z /\ (1100 <= 1300)%Z /\
  exists r1 r2,
    hyterce_calculator_body "Drops" 1100 3 = Ok (Some r1) /\
    hyterce_calculator_body "Drops" 1300 3 = Ok (Some r2) /\
    hy_incentive r1 <= hy_incentive r2.
Proof.
  assert (H1 : (1 <= 3 <= 3)%Z) by lia.
  assert (H2 : (1100 <= 1300)%Z) by lia.
  split; [exact H1|]. split; [exact H2|].
  eexists. eexists. split; [reflexivity|]. split; [reflexivity|].
  apply (hyterce_grows_with_units "Drops" 3 1100 1300 _ _ H1 H2);
    reflexivity.
Defined.

Lemma hyterce_pcpm_ok (u m : Z) :
  exists q,
    (if Py.truthy_int m
     then Py.truediv (inject_Z u) (inject_Z m)
     else Ok 0) = Ok q.
Proof.
  destruct (truthy_intP m) as [Hm|_].
  - rewrite (truediv_int _ _ Hm). eexists; reflexivity.
  - eexists; reflexivity.
Qed.

(** X6.  The product only selects the rate: any product label other than
    "Syrup" is priced as Drops, and on the same units and months Syrup is in
    the same slab as Drops and never pays less. *)
Theorem hyterce_products (p : string) (u m : Z) :
  (p <> "" -> p <> "Syrup" ->
   hyterce_calculator_body p u m = hyterce_calculator_body "Drops" u m) /\
  (exists rs rd,
     hyterce_calculator_body "Syrup" u m = Ok (Some rs) /\
     hyterce_calculator_body "Drops" u m = Ok (Some rd) /\
     hy_pcpm rs = hy_pcpm rd /\ hy_slab rs = hy_slab rd /\
     (hy_rate rd <= hy_rate rs)%Z /\
     hy_incentive rd <= hy_incentive rs).
Proof.
  destruct (hyterce_pcpm_ok u m) as [q Eq].
  split.
  - intros Hne Hns.
    assert (Ht : Py.truthy_str p = true)
      by (destruct (truthy_strP p); tauto).
    assert (Hs : (p =? "Syrup")%string = false)
      by (apply String.eqb_neq; exact Hns).
    unfold hyterce_calculator_body. rewrite Ht, Hs. reflexivity.
  - unfold hyterce_calculator_body.
    cbn [Py.truthy_str String.eqb Ascii.eqb Bool.eqb negb].
    rewrite Eq. cbn [Py.bind].
    destruct (geP q 200) as [H200|H200];
      [destruct (ltP q 400); [|destruct (ltP q 600)]|];
      cbn [String.eqb Ascii.eqb Bool.eqb];
      eexists; eexists; (split; [reflexivity|]); (split; [reflexivity|]);
      cbn [hy_pcpm hy_slab hy_rate hy_incentive];
      split_all; try reflexivity; try lia; unfold inject_Z; lra.
Qed.

Lemma hyterce_products_witness :
  "Tablet" <> "" /\ "Tablet" <> "Syrup" /\
  hyterce_calculator_body "Tablet" 900 2 = hyterce_calculator_body "Drops" 900 2.
Proof.
  assert (H1 : "Tablet" <> "") by discriminate.
  assert (H2 : "Tablet" <> "Syrup") by discriminate.
  split; [exact H1|]. split; [exact H2|].
  exact (proj1 (hyterce_products "Tablet" 900 2) H1 H2).
Defined.

(** ** Resplash across slabs *)

Lemma resplash_body_some (b c : Z) (r : resplash_result) :
  resplash_incentive_body b c = Some r ->
  (b < c)%Z /\
  rs_incremental r = (c - b)%Z /\
  rs_slab r = fst (resplash_slab (c - b)) /\
  rs_rate r = snd (resplash_slab (c - b)) /\
  rs_precision r = inject_Z (c - b) * snd (resplash_slab (c - b)) /\
  rs_excellence r = (c - b >=? 7500)%Z.
Proof.
  unfold resplash_incentive_body, incremental_units.
  destruct (Z.gtb_spec c b) as [Hc|Hc].
  - destruct (Z.gtb_spec (c - b) 0) as [_|H]; [|lia].
    destruct (resplash_slab (c - b)) as [slab rate].
    intro E; injection E as <-. cbn. repeat apply conj; auto; lia.
  - cbn. discriminate.
Qed.

Lemma resplash_body_none (b c : Z) :
  resplash_incentive_body b c = None <-> (c <= b)%Z.
Proof.
  unfold resplash_incentive_body, incremental_units.
  destruct (Z.gtb_spec c b) as [Hc|Hc].
  - destruct (Z.gtb_spec (c - b) 0) as [_|H]; [|lia].
    destruct (resplash_slab (c - b)). split; [discriminate|lia].
  - cbn. split; [intros _; exact Hc|reflexivity].
Qed.

Lemma resplash_rate_mono (n1 n2 : Z) :
  (n1 <= n2)%Z -> snd (resplash_slab n1) <= snd (resplash_slab n2).
Proof.
  intro Hn. unfold resplash_slab.
  repeat match goal with
         | |- context [(?a <? ?b)%Z] => destruct (Z.ltb_spec a b)
         end; cbn [snd]; try lra; lia.
Qed.

(** X7.  The Resplash rule looks at the difference of the two entries only:
    shifting base and current units by the same number changes nothing, and
    no result is shown exactly when the current units do not exceed the
    base. *)
Theorem resplash_depends_on_difference (b c k : Z) :
  resplash_incentive_body (b + k) (c + k) = resplash_incentive_body b c /\
  (resplash_incentive_body b c = None <-> (c <= b)%Z).
Proof.
  split; [|apply resplash_body_none].
  unfold resplash_incentive_body, incremental_units.
  replace (c + k >? b + k)%Z with (c >? b)%Z
    by (destruct (Z.gtb_spec c b); destruct (Z.gtb_spec (c + k) (b + k));
        first [reflexivity | lia]).
  replace (c + k - (b + k))%Z with (c - b)%Z by lia. reflexivity.
Qed.

(** X8.  With a result, a larger difference between current and base units
    (higher current units or a lower base) still gives a result and never
    lowers the per-unit rate or the precision amount, also across the slab
    boundaries. *)
Theorem resplash_grows_with_increment (b1 c1 b2 c2 : Z) (r1 : resplash_result)
    (Hinc : (c1 - b1 <= c2 - b2)%Z)
    (H1 : resplash_incentive_body b1 c1 = Some r1) :
  exists r2,
    resplash_incentive_body b2 c2 = Some r2 /\
    rs_rate r1 <= rs_rate r2 /\ rs_precision r1 <= rs_precision r2.
Proof.
  destruct (resplash_body_some _ _ _ H1) as [Hlt1 [_ [_ [Hr1 [Hp1 _]]]]].
  destruct (resplash_incentive_body b2 c2) as [r2|] eqn:H2;
    [|apply resplash_body_none in H2; lia].
  exists r2. split; [reflexivity|].
  destruct (resplash_body_some _ _ _ H2) as [Hlt2 [_ [_ [Hr2 [Hp2 _]]]]].
  pose proof (resplash_rate_mono _ _ Hinc) as Hrate.
  rewrite Hr1, Hr2, Hp1, Hp2. split; [exact Hrate|].
  apply Qle_trans with (inject_Z (c1 - b1) * snd (resplash_slab (c2 - b2))).
  - rewrite !(Qmult_comm (inject_Z (c1 - b1))).
    apply Qmult_le_compat_r; [exact Hrate|].
    change 0 with (inject_Z 0). rewrite <- Zle_Qle. lia.
  - apply Qmult_le_compat_r; [rewrite <- Zle_Qle; exact Hinc|].
    apply (proj1 (resplash_slab_rate (c2 - b2))).
Qed.

Lemma resplash_grows_with_increment_witness :
  (3200 - 1000 <= 9000 - 1000)%Z /\
  exists r1 r2,
    resplash_incentive_body 1000 3200 = Some r1 /\
    resplash_incentive_body 1000 9000 = Some r2 /\
    rs_precision r1 <= rs_precision r2.
Proof.
  assert (H : (3200 - 1000 <= 9000 - 1000)%Z) by lia.
  split; [exact H|].
  destruct (resplash_grows_with_increment 1000 3200 1000 9000 _ H eq_refl)
    as [r2 [H2 [_ Hp]]].
  eexists. exists r2. split; [reflexivity|]. split; [exact H2|exact Hp].
Defined.

(** X9.  Whoever is eligible for the excellence incentive is in the top
    precision slab: with at least 7500 incremental units the slab is Summit,
    the rate 1.50 and the precision amount at least 11250. *)
Theorem resplash_excellence_is_summit (b c : Z) (r : resplash_result)
    (Hr : resplash_incentive_body b c = Some r)
    (He : rs_excellence r = true) :
  (7500 <= c - b)%Z /\
  rs_slab r = "Summit" /\ rs_rate r == 1.50 /\ 11250 <= rs_precision r.
Proof.
  destruct (resplash_body_some _ _ _ Hr) as [_ [_ [Hs [Hrate [Hp Hx]]]]].
  rewrite Hx in He. apply Z.geb_le in He.
  rewrite Hs, Hrate, Hp. unfold resplash_slab.
  repeat match goal with
         | |- context [(?a <? ?b)%Z] =>
             destruct (Z.ltb_spec a b) as [Hlt|_]; [exfalso; lia|]
         end.
  cbn [fst snd]. split_all; try reflexivity; try lia.
  assert (H : inject_Z 7500 <= inject_Z (c - b)) by (rewrite <- Zle_Qle; lia).
  unfold inject_Z in H at 1. lra.
Qed.

Lemma resplash_excellence_is_summit_witness :
  exists r,
    resplash_incentive_body 500 8200 = Some r /\
    rs_excellence r = true /\ rs_slab r = "Summit".
Proof.
  eexists. split; [reflexivity|]. split; [reflexivity|].
  apply (resplash_excellence_is_summit 500 8200 _ eq_refl eq_refl).
Defined.

(** ** Qualification and growth in the MR annual and volume rules *)

Lemma classify_group_truthy_is_group (p : Q) :
  Py.truthy_str (classify_group p) = true ->
  ~ p == 0 /\ is_group (classify_group p).
Proof.
  intro Ht. destruct (Qeq_dec p 0) as [Hz|Hnz].
  - rewrite (classify_group_zero _ Hz) in Ht. discriminate Ht.
  - split; [exact Hnz|apply classify_group_nonzero; exact Hnz].
Qed.

Lemma annual_multiplier_positive_iff (ach : Q) (g : string) :
  is_group g -> (0 < annual_multiplier ach g <-> 105 <= ach).
Proof.
  unfold is_group, annual_multiplier.
  intros [<- | [<- | [<- | [<- | []]]]];
    cbn [String.eqb Ascii.eqb Bool.eqb]; cmp_cases; split; intro; lra.
Qed.

Lemma annual_multiplier_bounded (ach : Q) (g : string) :
  annual_multiplier ach g <= 1.5.
Proof. unfold annual_multiplier. split_ifs; lra. Qed.

Lemma annual_multiplier_mono_ach (a1 a2 : Q) (g : string) :
  a1 <= a2 -> annual_multiplier a1 g <= annual_multiplier a2 g.
Proof.
  intro Ha. unfold annual_multiplier.
  cmp_cases; try (exfalso; lra); split_ifs; lra.
Qed.

Lemma annual_multiplier_mono_pcpm (ach p1 p2 : Q) :
  0 < p1 -> p1 <= p2 ->
  annual_multiplier ach (classify_group p1)
    <= annual_multiplier ach (classify_group p2).
Proof.
  apply (by_rank_mono Qle (annual_multiplier ach));
    try (unfold annual_multiplier; cbn [String.eqb Ascii.eqb Bool.eqb];
         cmp_cases; lra).
  - intro x. apply Qle_refl.
  - intros x y z. apply Qle_trans.
Qed.

Lemma mr_annual_body_some (pcpm ach salary : Q) (r : annual_result) :
  mr_annual_incentive_body pcpm ach salary = Some r ->
  ~ pcpm == 0 /\ is_group (classify_group pcpm) /\
  r = {| an_group := classify_group pcpm;
         an_multiplier := annual_multiplier ach (classify_group pcpm);
         an_incentive := salary * annual_multiplier ach (classify_group pcpm) |}.
Proof.
  unfold mr_annual_incentive_body.
  destruct (Py.truthy_str (classify_group pcpm)) eqn:Ht; [|discriminate].
  apply classify_group_truthy_is_group in Ht as [Hnz Hg].
  intro E; injection E as <-. auto.
Qed.

(** X10.  The annual rule warns of a disqualification exactly when the
    achievement is below 105: with a group, the multiplier is positive if
    and only if the achievement reaches 105; it never exceeds 1.5, and on a
    non-negative salary the amount never exceeds one and a half salaries. *)
Theorem mr_annual_qualifies (pcpm ach salary : Q) (r : annual_result)
    (Hr : mr_annual_incentive_body pcpm ach salary = Some r) :
  (0 < an_multiplier r <-> 105 <= ach) /\
  (ach < 105 -> an_incentive r == 0) /\
  an_multiplier r <= 1.5 /\
  (0 <= salary -> an_incentive r <= 1.5 * salary).
Proof.
  destruct (mr_annual_body_some _ _ _ _ Hr) as [_ [Hg ->]].
  cbn [an_multiplier an_incentive].
  pose proof (annual_multiplier_positive_iff ach _ Hg) as Hiff.
  pose proof (annual_multiplier_bounded ach (classify_group pcpm)) as Hb.
  pose proof (annual_multiplier_nonneg ach (classify_group pcpm)) as Hn.
  set (m := annual_multiplier ach (classify_group pcpm)) in *.
  split; [exact Hiff|]. split; [|split; [exact Hb|]].
  - intro Hlt. assert (Hm : m == 0).
    { destruct (Qlt_le_dec 0 m) as [Hpos|Hle]; [apply Hiff in Hpos; lra|lra]. }
    rewrite Hm. lra.
  - intro Hs. rewrite (Qmult_comm 1.5 salary).
    rewrite !(Qmult_comm salary).
    apply Qmult_le_compat_r; assumption.
Qed.

Lemma mr_annual_qualifies_witness :
  exists r,
    mr_annual_incentive_body 2 104.96 30000 = Some r /\
    (0 < an_multiplier r <-> 105 <= 104.96).
Proof.
  eexists. split; [reflexivity|].
  exact (proj1 (mr_annual_qualifies 2 104.96 30000 _ eq_refl)).
Defined.

(** X11.  On a non-negative salary the annual amount grows with the
    achievement and with the PCPM: a higher achievement or a higher
    (positive) PCPM never lowers the multiplier or the amount, also across
    bands and groups. *)
Theorem mr_annual_grows (p1 p2 a1 a2 salary : Q) (r1 : annual_result)
    (Hp : p1 <= p2) (Ha : a1 <= a2) (Hs : 0 <= salary) (Hp1 : 0 < p1)
    (H1 : mr_annual_incentive_body p1 a1 salary = Some r1) :
  exists r2,
    mr_annual_incentive_body p2 a2 salary = Some r2 /\
    an_multiplier r1 <= an_multiplier r2 /\
    an_incentive r1 <= an_incentive r2.
Proof.
  destruct (mr_annual_body_some _ _ _ _ H1) as [_ [_ ->]].
  assert (Hp2 : 0 < p2) by lra.
  unfold mr_annual_incentive_body at 1.
  rewrite (is_group_truthy _ (classify_group_is_group _ Hp2)).
  eexists. split; [reflexivity|]. cbn [an_multiplier an_incentive].
  assert (Hm : annual_multiplier a1 (classify_group p1)
               <= annual_multiplier a2 (classify_group p2)).
  { apply Qle_trans with (annual_multiplier a2 (classify_group p1)).
    - apply annual_multiplier_mono_ach; exact Ha.
    - apply annual_multiplier_mono_pcpm; assumption. }
  split; [exact Hm|].
  rewrite !(Qmult_comm salary). apply Qmult_le_compat_r; assumption.
Qed.

Lemma mr_annual_grows_witness :
  1.2 <= 4.6 /\ 106 <= 111 /\ 0 <= 50000 /\ 0 < 1.2 /\
  exists r1 r2,
    mr_annual_incentive_body 1.2 106 50000 = Some r1 /\
    mr_annual_incentive_body 4.6 111 50000 = Some r2 /\
    an_incentive r1 <= an_incentive r2.
Proof.
  assert (H1 : 1.2 <= 4.6) by lra.
  assert (H2 : 106 <= 111) by lra.
  assert (H3 : 0 <= 50000) by lra.
  assert (H4 : 0 < 1.2) by lra.
  split; [exact H1|]. split; [exact H2|]. split; [exact H3|].
  split; [exact H4|].
  destruct (mr_annual_grows 1.2 4.6 106 111 50000 _ H1 H2 H3 H4 eq_refl)
    as [r2 [Hr2 [_ Hi]]].
  eexists. exists r2. split; [reflexivity|]. split; [exact Hr2|exact Hi].
Defined.

Lemma volume_rate_positive_iff (ach : Q) (g : string) :
  is_group g -> (0 < volume_rate_table ach g <-> 95 <= ach).
Proof.
  unfold is_group, volume_rate_table, by_group.
  intros [<- | [<- | [<- | [<- | []]]]];
    cbn [String.eqb Ascii.eqb Bool.eqb]; cmp_cases; split; intro; lra.
Qed.

Lemma volume_rate_bounded (ach : Q) (g : string) :
  volume_rate_table ach g <= 1.20.
Proof. unfold volume_rate_table, by_group. split_ifs; lra. Qed.

Lemma volume_rate_mono_ach (a1 a2 : Q) (g : string) :
  a1 <= a2 -> volume_rate_table a1 g <= volume_rate_table a2 g.
Proof.
  intro Ha. unfold volume_rate_table, by_group.
  cmp_cases; try (exfalso; lra); split_ifs; lra.
Qed.

Lemma volume_rate_mono_pcpm (ach p1 p2 : Q) :
  0 < p1 -> p1 <= p2 ->
  volume_rate_table ach (classify_group p1)
    <= volume_rate_table ach (classify_group p2).
Proof.
  apply (by_rank_mono Qle (volume_rate_table ach));
    try (unfold volume_rate_table, by_group;
         cbn [String.eqb Ascii.eqb Bool.eqb]; cmp_cases; lra).
  - intro x. apply Qle_refl.
  - intros x y z. apply Qle_trans.
Qed.

(** The volume rule on every input: the rate is read from the table of the
    PCPM's group, which the dictionaries always hold. *)
Lemma mr_volume_body_total (period : string) (pcpm ach sale : Q) :
  mr_volume_incentive_body period pcpm ach sale =
    if Py.truthy_str period && Py.truthy_str (classify_group pcpm) then
      Ok (Some {| vo_group := classify_group pcpm;
                  vo_rate := volume_rate_table ach (classify_group pcpm);
                  vo_incentive :=
                    sale * volume_rate_table ach (classify_group pcpm) / 100 |})
    else Ok None.
Proof.
  unfold mr_volume_incentive_body.
  destruct (Py.truthy_str period); [|reflexivity].
  destruct (Py.truthy_str (classify_group pcpm)) eqn:Ht; [|reflexivity].
  apply classify_group_truthy_is_group in Ht as [_ Hg].
  rewrite (lookup_rate_group _ _ Hg). reflexivity.
Qed.

Lemma getitem_dict_exn {V : Type} (d : list (string * V)) (k : string) (e : exn) :
  Py.getitem_dict d k = Raise e -> e = KeyError.
Proof.
  induction d as [|[k' v] d IH]; cbn.
  - intro H. congruence.
  - destruct (k' =? k)%string; [discriminate|exact IH].
Qed.

(** X12.  [lookup_rate] indexes its dictionaries with the group label, and
    ends in [KeyError] exactly when the achievement is at least 95 and the
    label is none of the four keys, which are spelled with a no-break
    space as the labels the classification assigns; the volume rule only
    ever passes it such a label, so that it returns on every input. *)
Theorem mr_volume_never_raises (period g : string) (pcpm ach sale : Q) :
  (lookup_rate ach g = Raise KeyError <-> 95 <= ach /\ ~ is_group g) /\
  (forall e, lookup_rate ach g = Raise e -> e = KeyError) /\
  Py.returns (mr_volume_incentive_body period pcpm ach sale).
Proof.
  split_all.
  - split.
    + intro H. split.
      * unfold lookup_rate in H. revert H. cmp_cases; intro H;
          first [lra | discriminate H].
      * intro Hg. rewrite (lookup_rate_group _ _ Hg) in H. discriminate H.
    + intros [Ha Hg]. unfold is_group in Hg. cbn [In] in Hg.
      assert (Ea : ("Group A" =? g)%string = false)
        by (apply String.eqb_neq; tauto).
      assert (Eb : ("Group B" =? g)%string = false)
        by (apply String.eqb_neq; tauto).
      assert (Ec : ("Group C" =? g)%string = false)
        by (apply String.eqb_neq; tauto).
      assert (Ed : ("Group D" =? g)%string = false)
        by (apply String.eqb_neq; tauto).
      unfold lookup_rate, Py.getitem_dict. rewrite Ea, Eb, Ec, Ed.
      cmp_cases; first [reflexivity | exfalso; lra].
  - intros e. unfold lookup_rate.
    cmp_cases; try apply getitem_dict_exn. discriminate.
  - rewrite mr_volume_body_total. unfold Py.returns.
    destruct (_ && _)%bool; eexists; reflexivity.
Qed.

(** The label written with a plain space is not a key of the rate
    dictionaries. *)
Lemma mr_volume_never_raises_witness :
  (95 <= 96 /\ ~ is_group "Group C") /\
  lookup_rate 96 "Group C" = Raise KeyError.
Proof.
  assert (H : 95 <= 96 /\ ~ is_group "Group C").
  { split; [lra|]. unfold is_group. cbn [In].
    intros [H|[H|[H|[H|[]]]]]; discriminate H. }
  split; [exact H|].
  apply (proj1 (mr_volume_never_raises "Quarter" "Group C" 1 96 0)). exact H.
Defined.

(** X13.  The volume rule warns of a disqualification exactly when the
    achievement is below 95: with a result, the rate is positive if and
    only if the achievement reaches 95; it never exceeds 1.20 percent, so
    that on a non-negative sale the amount never exceeds 1.2 percent of the
    sale. *)
Theorem mr_volume_qualifies (period : string) (pcpm ach sale : Q)
    (r : volume_result)
    (Hr : mr_volume_incentive_body period pcpm ach sale = Ok (Some r)) :
  (0 < vo_rate r <-> 95 <= ach) /\
  (ach < 95 -> vo_incentive r == 0) /\
  vo_rate r <= 1.20 /\
  (0 <= sale -> vo_incentive r <= sale * 1.20 / 100).
Proof.
  rewrite mr_volume_body_total in Hr.
  destruct (Py.truthy_str period); [|discriminate Hr].
  destruct (Py.truthy_str (classify_group pcpm)) eqn:Ht; [|discriminate Hr].
  apply classify_group_truthy_is_group in Ht as [_ Hg].
  cbn [andb] in Hr. injection Hr as <-. cbn [vo_rate vo_incentive].
  pose proof (volume_rate_positive_iff ach _ Hg) as Hiff.
  pose proof (volume_rate_bounded ach (classify_group pcpm)) as Hb.
  pose proof (volume_rate_table_nonneg ach (classify_group pcpm)) as Hn.
  set (m := volume_rate_table ach (classify_group pcpm)) in *.
  split; [exact Hiff|]. split; [|split; [exact Hb|]].
  - intro Hlt. assert (Hm : m == 0).
    { destruct (Qlt_le_dec 0 m) as [Hpos|Hle]; [apply Hiff in Hpos; lra|lra]. }
    rewrite Hm. unfold Qdiv. rewrite Qmult_0_r, Qmult_0_l. reflexivity.
  - intro Hs. unfold Qdiv.
    apply Qmult_le_compat_r; [|apply Qinv_le_0_compat; lra].
    rewrite !(Qmult_comm sale). apply Qmult_le_compat_r; assumption.
Qed.

Lemma mr_volume_qualifies_witness :
  exists r,
    mr_volume_incentive_body "Quarter" 3 94.9 1000000 = Ok (Some r) /\
    (0 < vo_rate r <-> 95 <= 94.9).
Proof.
  eexists. split; [reflexivity|].
  exact (proj1 (mr_volume_qualifies "Quarter" 3 94.9 1000000 _ eq_refl)).
Defined.

(** X14.  On a non-negative sale the volume amount grows with the
    achievement and with the PCPM: a higher achievement or a higher
    (positive) PCPM never lowers the rate or the amount, also across bands
    and groups. *)
Theorem mr_volume_grows (period : string) (p1 p2 a1 a2 sale : Q)
    (r1 : volume_result)
    (Hp : p1 <= p2) (Ha : a1 <= a2) (Hs : 0 <= sale) (Hp1 : 0 < p1)
    (H1 : mr_volume_incentive_body period p1 a1 sale = Ok (Some r1)) :
  exists r2,
    mr_volume_incentive_body period p2 a2 sale = Ok (Some r2) /\
    vo_rate r1 <= vo_rate r2 /\
    vo_incentive r1 <= vo_incentive r2.
Proof.
  assert (Hp2 : 0 < p2) by lra.
  rewrite mr_volume_body_total in H1. rewrite mr_volume_body_total.
  destruct (Py.truthy_str period); [|discriminate H1].
  rewrite (is_group_truthy _ (classify_group_is_group _ Hp1)) in H1.
  rewrite (is_group_truthy _ (classify_group_is_group _ Hp2)).
  cbn [andb] in *. injection H1 as <-.
  eexists. split; [reflexivity|]. cbn [vo_rate vo_incentive].
  assert (Hm : volume_rate_table a1 (classify_group p1)
               <= volume_rate_table a2 (classify_group p2)).
  { apply Qle_trans with (volume_rate_table a2 (classify_group p1)).
    - apply volume_rate_mono_ach; exact Ha.
    - apply volume_rate_mono_pcpm; assumption. }
  split; [exact Hm|]. unfold Qdiv.
  apply Qmult_le_compat_r; [|apply Qinv_le_0_compat; lra].
  rewrite !(Qmult_comm sale). apply Qmult_le_compat_r; assumption.
Qed.

Lemma mr_volume_grows_witness :
  1 <= 3 /\ 96 <= 101 /\ 0 <= 1000000 /\ 0 < 1 /\
  exists r1 r2,
    mr_volume_incentive_body "Annual" 1 96 1000000 = Ok (Some r1) /\
    mr_volume_incentive_body "Annual" 3 101 1000000 = Ok (Some r2) /\
    vo_incentive r1 <= vo_incentive r2.
Proof.
  assert (H1 : 1 <= 3) by lra.
  assert (H2 : 96 <= 101) by lra.
  assert (H3 : 0 <= 1000000) by lra.
  assert (H4 : 0 < 1) by lra.
  split; [exact H1|]. split; [exact H2|]. split; [exact H3|].
  split; [exact H4|].
  destruct (mr_volume_grows "Annual" 1 3 96 101 1000000 _ H1 H2 H3 H4 eq_refl)
    as [r2 [Hr2 [_ Hi]]].
  eexists. exists r2. split; [reflexivity|]. split; [exact Hr2|exact Hi].
Defined.

(** ** The manager rule at its edges *)

(** X15.  The manager rule ends in [ZeroDivisionError] exactly when the
    team size is zero and the role is eligible: the error is that of the
    line that displays the average.  The team-size widget, whose minimum is
    1, never passes such a team size, and on what the widgets pass the rule
    returns. *)
Theorem manager_raises_iff (thr : Z) (high ach pool : Q) (team : Z) (pct : Q) :
  (manager_incentive_body thr high ach pool team pct = Raise ZeroDivisionError
     <-> team = 0%Z /\ inject_Z thr <= pct) /\
  (forall name x,
     manager_incentive name thr high ach pool team pct = Some x ->
     Py.returns x).
Proof.
  split.
  - split.
    + intro H.
      destruct (Z.eq_dec team 0) as [Ht|Ht].
      * split; [exact Ht|].
        unfold manager_incentive_body in H.
        destruct (manager_amount_returns
                    (manager_multiplier (Py.ge pct (inject_Z thr)) high ach)
                    pool team) as [a [Ha _]].
        rewrite Ha in H. cbn [Py.bind] in H.
        destruct (geP pct (inject_Z thr)) as [Hp|Hp]; [exact Hp|discriminate H].
      * destruct (manager_body_returns thr high ach pool team pct Ht)
          as [res [Hres _]]. rewrite Hres in H. discriminate H.
    + intros [-> Hp]. unfold manager_incentive_body.
      destruct (manager_amount_returns
                  (manager_multiplier (Py.ge pct (inject_Z thr)) high ach)
                  pool 0) as [a [Ha _]].
      rewrite Ha. cbn [Py.bind].
      destruct (geP pct (inject_Z thr)) as [_|Hn]; [|tauto].
      rewrite truediv_zero. reflexivity.
  - intros name x H.
    apply manager_incentive_accepts in H as [_ [_ [Hc [_ [_ ->]]]]].
    destruct (manager_body_returns thr high ach pool team pct)
      as [res [Hres _]]; [lia|].
    exists res. exact Hres.
Qed.

Lemma manager_raises_iff_witness :
  (0%Z = 0%Z /\ inject_Z 40 <= 55) /\
  manager_incentive_body 40 1.2 90 120000 0 55 = Raise ZeroDivisionError.
Proof.
  assert (H : 0%Z = 0%Z /\ inject_Z 40 <= 55)
    by (split; [reflexivity|unfold inject_Z; lra]).
  split; [exact H|].
  apply (proj1 (manager_raises_iff 40 1.2 90 120000 0 55)). exact H.
Defined.

Lemma manager_multiplier_mono (e1 e2 : bool) (high a1 a2 : Q) :
  (e1 = true -> e2 = true) -> 1 <= high -> a1 <= a2 ->
  manager_multiplier e1 high a1 <= manager_multiplier e2 high a2.
Proof.
  intros He Hh Ha. unfold manager_multiplier.
  destruct e1; [rewrite (He eq_refl)|destruct e2];
    cmp_cases; lra.
Qed.

Lemma manager_multiplier_bounded (e : bool) (high ach : Q) :
  1 <= high -> manager_multiplier e high ach <= high.
Proof.
  intro Hh. unfold manager_multiplier. destruct e; cmp_cases; lra.
Qed.

Lemma Qdiv_int_nonneg_Q (x : Q) (n : Z) :
  0 <= x -> (0 < n)%Z -> 0 <= x / inject_Z n.
Proof.
  intros Hx Hn. apply Qle_shift_div_l.
  - change 0 with (inject_Z 0). rewrite <- Zlt_Qlt. exact Hn.
  - lra.
Qed.

(** X16.  For a role whose high multiplier is at least 1 (as for the three
    roles of [main]), a non-negative pool and a team of at least one, the
    manager's amount grows with the achievement and with the percentage of
    earning MRs; it never exceeds the high multiplier times the average MR
    incentive, and an eligible role with an achievement of at least 95 gets
    at least that average. *)
Theorem manager_grows (thr : Z) (high a1 a2 pool : Q) (team : Z) (pct1 pct2 : Q)
    (Hhigh : 1 <= high) (Hpool : 0 <= pool) (Hteam : (1 <= team)%Z)
    (Ha : a1 <= a2) (Hpct : pct1 <= pct2) :
  exists r1 r2,
    manager_incentive_body thr high a1 pool team pct1 = Ok r1 /\
    manager_incentive_body thr high a2 pool team pct2 = Ok r2 /\
    mg_multiplier r1 <= mg_multiplier r2 /\
    mg_incentive r1 <= mg_incentive r2 /\
    mg_incentive r2 <= high * (pool / inject_Z team) /\
    (mg_eligible r2 = true -> 95 <= a2 ->
     pool / inject_Z team <= mg_incentive r2).
Proof.
  destruct (manager_body_returns thr high a1 pool team pct1)
    as [r1 [H1 [E1 [M1 [P1 _]]]]]; [lia|].
  destruct (manager_body_returns thr high a2 pool team pct2)
    as [r2 [H2 [E2 [M2 [P2 _]]]]]; [lia|].
  exists r1, r2. split; [exact H1|]. split; [exact H2|].
  assert (Hh0 : 0 <= high) by lra.
  pose proof (manager_multiplier_nonneg (mg_eligible r1) high a1 Hh0) as N1.
  pose proof (manager_multiplier_nonneg (mg_eligible r2) high a2 Hh0) as N2.
  pose proof (manager_multiplier_bounded (mg_eligible r2) high a2 Hhigh) as B2.
  assert (Hm : mg_multiplier r1 <= mg_multiplier r2).
  { rewrite M1, M2. apply manager_multiplier_mono; auto.
    rewrite E1, E2. intro H.
    destruct (geP pct1 (inject_Z thr)) as [G|_]; [|discriminate H].
    destruct (geP pct2 (inject_Z thr)) as [_|G']; [reflexivity|lra]. }
  rewrite <- M1 in N1. rewrite <- M2 in N2, B2.
  pose proof (Qdiv_int_nonneg_Q pool team Hpool ltac:(lia)) as Havg.
  rewrite (P1 N1), (P2 N2).
  set (avg := pool / inject_Z team) in *.
  split; [exact Hm|].
  split; [rewrite !(Qmult_comm avg); apply Qmult_le_compat_r; assumption|].
  split; [rewrite (Qmult_comm avg (mg_multiplier r2));
          apply Qmult_le_compat_r; assumption|].
  intros He H95. rewrite M2, He. unfold manager_multiplier.
  cmp_cases; try (exfalso; lra).
  - rewrite <- (Qmult_1_r avg) at 1. rewrite !(Qmult_comm avg).
    apply Qmult_le_compat_r; assumption.
  - rewrite Qmult_1_r. apply Qle_refl.
Qed.

Lemma manager_grows_witness :
  1 <= 1.5 /\ 0 <= 300000 /\ (1 <= 10)%Z /\ 96 <= 100 /\ 65 <= 80 /\
  exists r1 r2,
    manager_incentive_body 60 1.5 96 300000 10 65 = Ok r1 /\
    manager_incentive_body 60 1.5 100 300000 10 80 = Ok r2 /\
    mg_incentive r1 <= mg_incentive r2.
Proof.
  assert (H1 : 1 <= 1.5) by lra.
  assert (H2 : 0 <= 300000) by lra.
  assert (H3 : (1 <= 10)%Z) by lia.
  assert (H4 : 96 <= 100) by lra.
  assert (H5 : 65 <= 80) by lra.
  split; [exact H1|]. split; [exact H2|]. split; [exact H3|].
  split; [exact H4|]. split; [exact H5|].
  destruct (manager_grows 60 1.5 96 100 300000 10 65 80 H1 H2 H3 H4 H5)
    as [r1 [r2 [E1 [E2 [_ [Hi _]]]]]].
  exists r1, r2. split; [exact E1|]. split; [exact E2|exact Hi].
Defined.

(** ** Widget keys *)

Lemma list_ascii_of_string_app (a b : string) :
  list_ascii_of_string (a ++ b)
    = (list_ascii_of_string a ++ list_ascii_of_string b)%list.
Proof.
  induction a as [|c a IH]; cbn; [reflexivity|]. now rewrite IH.
Qed.

Lemma list_ascii_of_string_inj (a b : string) :
  list_ascii_of_string a = list_ascii_of_string b -> a = b.
Proof.
  intro H. rewrite <- (string_of_list_ascii_of_string a).
  rewrite <- (string_of_list_ascii_of_string b). now rewrite H.
Qed.

(** Two keys built from the four suffixes coincide only when both the
    suffix and the base coincide. *)
Lemma manager_key_inj (a b s1 s2 : string) :
  In s1 manager_suffixes -> In s2 manager_suffixes ->
  (a ++ s1 = b ++ s2)%string -> s1 = s2 /\ a = b.
Proof.
  intros H1 H2 E.
  apply (f_equal list_ascii_of_string) in E.
  rewrite !list_ascii_of_string_app in E.
  apply (f_equal (@rev ascii)) in E. rewrite !rev_app_distr in E.
  unfold manager_suffixes in H1, H2. cbn [In] in H1, H2.
  destruct H1 as [<-|[<-|[<-|[<-|[]]]]];
    destruct H2 as [<-|[<-|[<-|[<-|[]]]]];
    cbn in E; try discriminate E;
    (split; [reflexivity|]);
    apply list_ascii_of_string_inj;
    rewrite <- (rev_involutive (list_ascii_of_string a));
    rewrite <- (rev_involutive (list_ascii_of_string b));
    f_equal; congruence.
Qed.

Lemma replace_char_chars (old : ascii) (new s : string) (c : ascii) :
  In c (list_ascii_of_string (replace_char old new s)) ->
  (c <> old /\ In c (list_ascii_of_string s)) \/
  In c (list_ascii_of_string new).
Proof.
  induction s as [|x s IH]; cbn; [tauto|].
  destruct (Ascii.eqb_spec x old) as [->|Hx].
  - rewrite list_ascii_of_string_app, in_app_iff. tauto.
  - cbn. intros [<-|H]; [left; auto|tauto].
Qed.

(** X17.  The keys that [manager_incentive] derives from a role name never
    contain a slash or a space; the four widgets of one role get four
    different keys; two roles share a key only if their key bases are equal,
    and then they share all four (as "RSM/BM" and "RSM BM" would); and the
    28 keys of one run of [main] are all different. *)
Theorem widget_keys_distinct (name1 name2 : string) :
  (forall c, In c (list_ascii_of_string (key_base name1)) ->
             c <> "/"%char /\ c <> " "%char) /\
  NoDup (manager_keys name1) /\
  (forall k, In k (manager_keys name1) -> In k (manager_keys name2) ->
             key_base name1 = key_base name2) /\
  (key_base name1 = key_base name2 -> manager_keys name1 = manager_keys name2) /\
  key_base "RSM/BM" = key_base "RSM BM" /\
  List.length main_keys = 28%nat /\
  NoDup main_keys.
Proof.
  split_all.
  - intros c Hc. unfold key_base in Hc.
    apply replace_char_chars in Hc as [[Hs Hc]|Hc].
    + apply replace_char_chars in Hc as [[Hsl _]|Hc].
      * split; assumption.
      * cbn in Hc. destruct Hc as [<-|[]]. split; discriminate.
    + cbn in Hc. destruct Hc as [<-|[]]. split; discriminate.
  - unfold manager_keys, manager_suffixes. cbn [map].
    repeat constructor; cbn [In]; intro H;
      repeat (destruct H as [H|H];
              [apply manager_key_inj in H as [H _];
               [discriminate H|cbn; tauto|cbn; tauto]|]);
      exact H.
  - intros k H1 H2. unfold manager_keys in H1, H2.
    apply in_map_iff in H1 as [s1 [<- Hs1]].
    apply in_map_iff in H2 as [s2 [E Hs2]].
    symmetry in E. apply manager_key_inj in E as [_ E]; assumption.
  - intro E. unfold manager_keys. now rewrite E.
  - reflexivity.
  - reflexivity.
  - apply (NoDup_count_occ' string_dec). intros k Hk.
    cbn in Hk.
    repeat (destruct Hk as [<-|Hk]; [vm_compute; reflexivity|]).
    destruct Hk.
Qed.

Lemma widget_keys_distinct_witness :
  In "RSM_BM_total" (manager_keys "RSM/BM") /\
  In "RSM_BM_total" (manager_keys "RSM BM") /\
  key_base "RSM/BM" = key_base "RSM BM".
Proof.
  assert (H1 : In "RSM_BM_total" (manager_keys "RSM/BM")) by (cbn; tauto).
  assert (H2 : In "RSM_BM_total" (manager_keys "RSM BM")) by (cbn; tauto).
  split; [exact H1|]. split; [exact H2|].
  exact (proj1 (proj2 (proj2 (widget_keys_distinct "RSM/BM" "RSM BM")))
           "RSM_BM_total" H1 H2).
Defined.

(** ** Terms and the page *)
















